(** * Generic cubic equation of state: phase selection and property setting

    A shallow embedding of the state-independent machinery of
    [thermo/eos.py] (class [GCEOS]): the TV / PV / PT dispatch of [solve]
    and [to_TV], the root filter of [set_from_PT], the property setter
    [set_properties_from_solution] with its derivative and departure
    formulas, the inverse solver [solve_T], the ideal-gas short circuit and
    the low-pressure tier of [volume_solutions_NR], and two of the
    departure derivatives.

    Python floats are IEEE-754 binary64 values; they are embedded as Rocq's
    primitive floats, so every arithmetic expression below rounds exactly as
    the interpreter does.  Python exceptions are embedded in an error monad.
    Functions of [math], [cmath] and [fluids.numerics], which are not part of
    the repository, enter as fields of a record of collaborators. *)

From Stdlib Require Import String.
From Stdlib Require Import Floats ZArith List Bool Lia.
Import ListNotations.

Set Warnings "-inexact-float".
Set Implicit Arguments.

Open Scope float_scope.

(** ** Python values and exceptions *)

Module Py.

(** A Python number as the root lists hold them: a [float], or a
    [complex] with its two float parts. *)
Inductive num : Type :=
| Float (x : float)
| Complex (re im : float).

(** [z.real] and [z.imag]; a float answers [0.0] for [imag]. *)
Definition real (z : num) : float :=
  match z with Float x => x | Complex re _ => re end.

Definition imag (z : num) : float :=
  match z with Float _ => 0 | Complex _ im => im end.

(** The literal [1.0j] and the expression [-1j] (unary minus applied to
    [1j], hence both parts negated). *)
Definition j1 : num := Complex 0 1.
Definition neg_j1 : num := Complex (-0) (-1).

(** The exceptions the embedded functions raise. *)
Inductive exn : Type :=
| ZeroDivisionError
    (* float division or 0.0 ** negative *)
| MathDomainError
    (* ValueError("math domain error") of math / cmath *)
| ComplexPower
    (* negative ** -0.5 is a complex number in Python 3: not interpreted *)
| IndexError
| AttributeError
    (* reading an attribute that no setter has stored *)
| TypeErrorNone
    (* arithmetic on an attribute that is still None *)
| InsufficientInputs
    (* Exception('Either T and P, or T and V, or P and V are required') *)
| NegativePressure (P : float)
    (* ValueError("TV inputs result in negative pressure of %f Pa") *)
| NoAcceptableRoots (Vs : list num) (T P : option float) (a_alpha b : float)
    (* Exception('No acceptable roots were found; the roots are ...') *)
| External (code : nat)
    (* raised inside a collaborator (solver, alpha function) *).

Inductive result (A : Type) : Type :=
| Ok (a : A)
| Raise (e : exn).
Arguments Raise {A} e.

Definition bind {A B} (m : result A) (k : A -> result B) : result B :=
  match m with Ok a => k a | Raise e => Raise e end.

(** [try: m except ZeroDivisionError: h] *)
Definition except_zero_division {A} (m : result A) (h : A) : result A :=
  match m with Raise ZeroDivisionError => Ok h | r => r end.

(** [try: m except: h] as an optional value: a bare [except] catches all. *)
Definition attempt {A} (m : result A) : option A :=
  match m with Ok a => Some a | Raise _ => None end.

(** Float true division: [x / y] raises on a zero divisor of either sign. *)
Definition div (x y : float) : result float :=
  if y =? 0 then Raise ZeroDivisionError else Ok (x / y).

(** [None] for an optional libm result means [ValueError]. *)
Definition domain (o : option float) : result float :=
  match o with Some x => Ok x | None => Raise MathDomainError end.

Definition is_ok {A} (m : result A) : bool :=
  match m with Ok _ => true | Raise _ => false end.

End Py.

Import Py.

Declare Scope py_scope.
Notation "x <- m ;; k" := (Py.bind m (fun x => k))
  (at level 61, m at next level, right associativity) : py_scope.
Notation "' p <- m ;; k" := (Py.bind m (fun p => k))
  (at level 61, p pattern, m at next level, right associativity) : py_scope.
Open Scope py_scope.

(** ** Collaborators

    What [eos.py] imports and never defines: the gas constant, the
    transcendental functions, and the scalar solvers of [fluids.numerics]. *)

Record Numerics : Type := {
  R : float;
  (** [cmath.atanh(x).real] of a float argument; [None] at the poles. *)
  catanh_real : float -> option float;
  (** [cmath.log(x).real]; [None] at zero. *)
  clog_real : float -> option float;
  (** [math.log]; [None] outside the domain. *)
  log : float -> option float;
  (** [math.exp]; [None] is [OverflowError]. *)
  exp : float -> option float;
  (** [x ** -0.5] where the result is a float (positive, infinite or NaN
      [x]). *)
  pow_neg_half : float -> float;
  (** [brenth(f, a, b, xtol=, fa=, fb=)] *)
  brenth : (float -> result float) -> float -> float -> float ->
           option (float * float) -> result float;
  (** [secant(f, x0, low=, xtol=, same_tol=, f0=)] *)
  secant : (float -> result float) -> float -> float -> float -> float ->
           float -> result float;
  (** [isclose(a, b, rel_tol=)] *)
  isclose : float -> float -> float -> bool
}.

(** [R_inv = 1.0/R], a module constant. *)
Definition R_inv (nm : Numerics) : float := 1 / R nm.

(** [x ** -0.5] for a float [x] (CPython's [float_pow]): zero raises, NaN
    and the infinities are answered without an error, a negative finite
    base leaves the floats. *)
Definition float_pow_neg_half (nm : Numerics) (x : float) : result float :=
  if x =? 0 then Raise ZeroDivisionError
  else if (x <? 0) && negb (x =? neg_infinity) then Raise ComplexPower
  else Ok (pow_neg_half nm x).

(** [trunc_exp(x, trunc=1e308)] of [fluids.numerics], reached only from the
    [OverflowError] handler of the fugacity. *)
Definition exp_or_trunc (nm : Numerics) (x : float) : float :=
  match exp nm x with Some y => y | None => 1e308 end.

(** ** The data model *)

Inductive Phase : Type := PhaseL | PhaseG | PhaseLG.

(** The attributes [set_properties_from_solution] stores with the suffix
    [_l] or [_g]. *)
Record PhaseRecord : Type := {
  V_ : float;  Z_ : float;
  beta : float;  kappa : float;
  PIP : float;  Cp_minus_Cv : float;
  dP_dT : float;  dP_dV : float;  dV_dT : float;
  dV_dP : float;  dT_dV : float;  dT_dP : float;
  d2P_dT2 : float;  d2P_dV2 : float;
  d2V_dT2 : float;  d2V_dP2 : float;
  d2T_dV2 : float;  d2T_dP2 : float;
  d2V_dPdT : float;  d2P_dTdV : float;  d2T_dPdV : float;
  H_dep : float;  S_dep : float;  V_dep : float;
  U_dep : float;  G_dep : float;  A_dep : float;
  fugacity : float;  phi : float;
  Cp_dep : float;  Cv_dep : float
}.

(** One [GCEOS] object.  [T], [P], [V] are the constructor arguments, two
    of which are given; [liquid] and [gas] stand for the two groups of
    suffixed attributes, absent until a property setter stores them. *)
Record EOS : Type := {
  T : option float;
  P : option float;
  V : option float;
  Tc : float;
  Pc : float;
  N : nat;
  multicomponent : bool;
  Tcs : list float;
  Pcs : list float;
  b : float;
  delta : float;
  epsilon : float;
  a_alpha : float;
  da_alpha_dT : float;
  d2a_alpha_dT2 : float;
  raw_volumes : option (list num);
  no_T_spec : bool;
  liquid : option PhaseRecord;
  gas : option PhaseRecord;
  phase : option Phase
}.

Definition set_T (s : EOS) (x : option float) : EOS :=
  {| T := x; P := P s; V := V s; Tc := Tc s; Pc := Pc s; N := N s;
     multicomponent := multicomponent s; Tcs := Tcs s; Pcs := Pcs s;
     b := b s; delta := delta s; epsilon := epsilon s;
     a_alpha := a_alpha s; da_alpha_dT := da_alpha_dT s;
     d2a_alpha_dT2 := d2a_alpha_dT2 s; raw_volumes := raw_volumes s;
     no_T_spec := no_T_spec s; liquid := liquid s; gas := gas s;
     phase := phase s |}.

Definition set_P (s : EOS) (x : float) : EOS :=
  {| T := T s; P := Some x; V := V s; Tc := Tc s; Pc := Pc s; N := N s;
     multicomponent := multicomponent s; Tcs := Tcs s; Pcs := Pcs s;
     b := b s; delta := delta s; epsilon := epsilon s;
     a_alpha := a_alpha s; da_alpha_dT := da_alpha_dT s;
     d2a_alpha_dT2 := d2a_alpha_dT2 s; raw_volumes := raw_volumes s;
     no_T_spec := no_T_spec s; liquid := liquid s; gas := gas s;
     phase := phase s |}.

Definition set_alphas (s : EOS) (a da d2a : float) : EOS :=
  {| T := T s; P := P s; V := V s; Tc := Tc s; Pc := Pc s; N := N s;
     multicomponent := multicomponent s; Tcs := Tcs s; Pcs := Pcs s;
     b := b s; delta := delta s; epsilon := epsilon s;
     a_alpha := a; da_alpha_dT := da; d2a_alpha_dT2 := d2a;
     raw_volumes := raw_volumes s;
     no_T_spec := no_T_spec s; liquid := liquid s; gas := gas s;
     phase := phase s |}.

Definition set_raw_volumes (s : EOS) (Vs : list num) : EOS :=
  {| T := T s; P := P s; V := V s; Tc := Tc s; Pc := Pc s; N := N s;
     multicomponent := multicomponent s; Tcs := Tcs s; Pcs := Pcs s;
     b := b s; delta := delta s; epsilon := epsilon s;
     a_alpha := a_alpha s; da_alpha_dT := da_alpha_dT s;
     d2a_alpha_dT2 := d2a_alpha_dT2 s; raw_volumes := Some Vs;
     no_T_spec := no_T_spec s; liquid := liquid s; gas := gas s;
     phase := phase s |}.

Definition set_no_T_spec (s : EOS) : EOS :=
  {| T := T s; P := P s; V := V s; Tc := Tc s; Pc := Pc s; N := N s;
     multicomponent := multicomponent s; Tcs := Tcs s; Pcs := Pcs s;
     b := b s; delta := delta s; epsilon := epsilon s;
     a_alpha := a_alpha s; da_alpha_dT := da_alpha_dT s;
     d2a_alpha_dT2 := d2a_alpha_dT2 s; raw_volumes := raw_volumes s;
     no_T_spec := true; liquid := liquid s; gas := gas s;
     phase := phase s |}.

Definition set_liquid (s : EOS) (r : PhaseRecord) : EOS :=
  {| T := T s; P := P s; V := V s; Tc := Tc s; Pc := Pc s; N := N s;
     multicomponent := multicomponent s; Tcs := Tcs s; Pcs := Pcs s;
     b := b s; delta := delta s; epsilon := epsilon s;
     a_alpha := a_alpha s; da_alpha_dT := da_alpha_dT s;
     d2a_alpha_dT2 := d2a_alpha_dT2 s; raw_volumes := raw_volumes s;
     no_T_spec := no_T_spec s; liquid := Some r; gas := gas s;
     phase := phase s |}.

Definition set_gas (s : EOS) (r : PhaseRecord) : EOS :=
  {| T := T s; P := P s; V := V s; Tc := Tc s; Pc := Pc s; N := N s;
     multicomponent := multicomponent s; Tcs := Tcs s; Pcs := Pcs s;
     b := b s; delta := delta s; epsilon := epsilon s;
     a_alpha := a_alpha s; da_alpha_dT := da_alpha_dT s;
     d2a_alpha_dT2 := d2a_alpha_dT2 s; raw_volumes := raw_volumes s;
     no_T_spec := no_T_spec s; liquid := liquid s; gas := Some r;
     phase := phase s |}.

Definition set_phase (s : EOS) (p : Phase) : EOS :=
  {| T := T s; P := P s; V := V s; Tc := Tc s; Pc := Pc s; N := N s;
     multicomponent := multicomponent s; Tcs := Tcs s; Pcs := Pcs s;
     b := b s; delta := delta s; epsilon := epsilon s;
     a_alpha := a_alpha s; da_alpha_dT := da_alpha_dT s;
     d2a_alpha_dT2 := d2a_alpha_dT2 s; raw_volumes := raw_volumes s;
     no_T_spec := no_T_spec s; liquid := liquid s; gas := gas s;
     phase := Some p |}.

(** Reading an attribute that arithmetic needs as a float. *)
Definition the (o : option float) : result float :=
  match o with Some x => Ok x | None => Raise TypeErrorNone end.

(** The number of phase records an object holds. *)
Definition phase_records (s : EOS) : nat :=
  (match liquid s with Some _ => 1 | None => 0 end)
  + (match gas s with Some _ => 1 | None => 0 end).

(** ** Derivatives and departure functions *)

Section Properties.

Variable nm : Numerics.

(** The eight values [main_derivatives_and_departures] returns. *)
Record MainDerivs : Type := {
  m_dP_dT : float;  m_dP_dV : float;  m_d2P_dT2 : float;
  m_d2P_dV2 : float;  m_d2P_dTdV : float;
  m_H_dep : float;  m_S_dep : float;  m_Cv_dep : float
}.


(** [x11]: the guarded inverse square root of [x10]. *)
Definition guarded_inv_sqrt (x10 : float) : result float :=
  except_zero_division (float_pow_neg_half nm x10) 0.

Definition main_derivatives_and_departures
    (T P V b delta epsilon a_alpha da_alpha_dT d2a_alpha_dT2 : float)
    : result MainDerivs :=
  let epsilon2 := epsilon + epsilon in
  x0 <- Py.div 1 (V - b) ;;
  x1 <- Py.div 1 (V * (V + delta) + epsilon) ;;
  let x3 := R nm * T in
  let x4 := x0 * x0 in
  let x5 := V + V + delta in
  let x6 := x1 * x1 in
  let x7 := a_alpha * x6 in
  let x8 := P * V in
  let x9 := delta * delta in
  let x10 := x9 - epsilon2 - epsilon2 in
  x11 <- guarded_inv_sqrt x10 ;;
  let x11_half := 0.5 * x11 in
  at_ <- Py.domain (catanh_real nm (x11 * x5)) ;;
  let x12 := 2 * x11 * at_ in
  let x14 := 0.5 * x5 in
  let x15 := epsilon2 * x11 in
  let x16 := x11_half * x9 in
  let x17 := x5 * x6 in
  let dP_dT := R nm * x0 - da_alpha_dT * x1 in
  let dP_dV := x5 * x7 - x3 * x4 in
  let d2P_dT2 := (- d2a_alpha_dT2) * x1 in
  let d2P_dV2 := x7 + x3 * x4 * x0 - a_alpha * x5 * x17 * x1 in
  let d2P_dV2 := d2P_dV2 + d2P_dV2 in
  let d2P_dTdV := da_alpha_dT * x17 - R nm * x4 in
  let H_dep := x12 * (T * da_alpha_dT - a_alpha) - x3 + x8 in
  t1 <- Py.div (x3 * x0) P ;;
  lg <- Py.domain (clog_real nm t1) ;;
  let S_dep := (- R nm) * lg + da_alpha_dT * x12 in
  let x18 := x16 - x15 in
  x19 <- Py.div (x14 + x18) (x14 - x18) ;;
  l2 <- Py.domain (log nm (x19 * x19)) ;;
  let Cv_dep := T * d2a_alpha_dT2 * x11_half * l2 in
  Ok {| m_dP_dT := dP_dT; m_dP_dV := dP_dV; m_d2P_dT2 := d2P_dT2;
        m_d2P_dV2 := d2P_dV2; m_d2P_dTdV := d2P_dTdV;
        m_H_dep := H_dep; m_S_dep := S_dep; m_Cv_dep := Cv_dep |}.

(** The eighteen values [derivatives_and_departures] returns. *)
Record Derivs : Type := {
  v_dP_dT : float;  v_dP_dV : float;  v_dV_dT : float;
  v_dV_dP : float;  v_dT_dV : float;  v_dT_dP : float;
  v_d2P_dT2 : float;  v_d2P_dV2 : float;  v_d2V_dT2 : float;
  v_d2V_dP2 : float;  v_d2T_dV2 : float;  v_d2T_dP2 : float;
  v_d2V_dPdT : float;  v_d2P_dTdV : float;  v_d2T_dPdV : float;
  v_H_dep : float;  v_S_dep : float;  v_Cv_dep : float
}.

Definition derivatives_and_departures
    (T P V b delta epsilon a_alpha da_alpha_dT d2a_alpha_dT2 : float)
    : result Derivs :=
  m <- main_derivatives_and_departures T P V b delta epsilon a_alpha
         da_alpha_dT d2a_alpha_dT2 ;;
  let dP_dT := m_dP_dT m in
  let dP_dV := m_dP_dV m in
  let d2P_dT2 := m_d2P_dT2 m in
  let d2P_dV2 := m_d2P_dV2 m in
  let d2P_dTdV := m_d2P_dTdV m in
  inverse_dP_dV <- except_zero_division (Py.div 1 dP_dV) infinity ;;
  dT_dP <- Py.div 1 dP_dT ;;
  let dV_dT := (- dP_dT) * inverse_dP_dV in
  let dV_dP := (- dV_dT) * dT_dP in
  dT_dV <- Py.div 1 dV_dT ;;
  let inverse_dP_dV2 := inverse_dP_dV * inverse_dP_dV in
  let inverse_dP_dV3 := inverse_dP_dV * inverse_dP_dV2 in
  let inverse_dP_dT2 := dT_dP * dT_dP in
  let inverse_dP_dT3 := inverse_dP_dT2 * dT_dP in
  let d2V_dP2 := (- d2P_dV2) * inverse_dP_dV3 in
  let d2T_dP2 := (- d2P_dT2) * inverse_dP_dT3 in
  let d2T_dV2 :=
    (- (d2P_dV2 * dP_dT - dP_dV * d2P_dTdV)) * inverse_dP_dT2
    + (d2P_dTdV * dP_dT - dP_dV * d2P_dT2) * inverse_dP_dT3 * dP_dV in
  let d2V_dT2 :=
    (- (d2P_dT2 * dP_dV - dP_dT * d2P_dTdV)) * inverse_dP_dV2
    + (d2P_dTdV * dP_dV - dP_dT * d2P_dV2) * inverse_dP_dV3 * dP_dT in
  let d2V_dPdT :=
    (- (d2P_dTdV * dP_dV - dP_dT * d2P_dV2)) * inverse_dP_dV3 in
  let d2T_dPdV :=
    (- (d2P_dTdV * dP_dT - dP_dV * d2P_dT2)) * inverse_dP_dT3 in
  Ok {| v_dP_dT := dP_dT; v_dP_dV := dP_dV; v_dV_dT := dV_dT;
        v_dV_dP := dV_dP; v_dT_dV := dT_dV; v_dT_dP := dT_dP;
        v_d2P_dT2 := d2P_dT2; v_d2P_dV2 := d2P_dV2;
        v_d2V_dT2 := d2V_dT2; v_d2V_dP2 := d2V_dP2;
        v_d2T_dV2 := d2T_dV2; v_d2T_dP2 := d2T_dP2;
        v_d2V_dPdT := d2V_dPdT; v_d2P_dTdV := d2P_dTdV;
        v_d2T_dPdV := d2T_dPdV;
        v_H_dep := m_H_dep m; v_S_dep := m_S_dep m;
        v_Cv_dep := m_Cv_dep m |}.

(** [PIP = V*(d2P_dTdV*dT_dP - d2P_dV2*dV_dP)] *)
Definition phase_identification (V : float) (d : Derivs) : float :=
  V * (v_d2P_dTdV d * v_dT_dP d - v_d2P_dV2 d * v_dV_dP d).

(** The body of [set_properties_from_solution] up to its final branch:
    every value the branch stores. *)
Definition properties_from_solution
    (T P V b delta epsilon a_alpha da_alpha_dT d2a_alpha_dT2 : float)
    : result PhaseRecord :=
  d <- derivatives_and_departures T P V b delta epsilon a_alpha
         da_alpha_dT d2a_alpha_dT2 ;;
  let RT := R nm * T in
  RT_inv <- Py.div 1 RT ;;
  P_inv <- Py.div 1 P ;;
  V_inv <- Py.div 1 V ;;
  let Z := P * V * RT_inv in
  let beta := v_dV_dT d * V_inv in
  let kappa := (- v_dV_dP d) * V_inv in
  let Cp_m_Cv := (- T) * v_dP_dT d * v_dP_dT d * v_dV_dP d in
  let Cp_dep := Cp_m_Cv + v_Cv_dep d - R nm in
  let TS_dep := T * v_S_dep d in
  let V_dep := V - RT * P_inv in
  let U_dep := v_H_dep d - P * V_dep in
  let G_dep := v_H_dep d - TS_dep in
  let A_dep := U_dep - TS_dep in
  let fugacity := P * exp_or_trunc nm (G_dep * RT_inv) in
  let phi := fugacity * P_inv in
  let PIP := phase_identification V d in
  Ok {| V_ := V; Z_ := Z; beta := beta; kappa := kappa;
        PIP := PIP; Cp_minus_Cv := Cp_m_Cv;
        dP_dT := v_dP_dT d; dP_dV := v_dP_dV d; dV_dT := v_dV_dT d;
        dV_dP := v_dV_dP d; dT_dV := v_dT_dV d; dT_dP := v_dT_dP d;
        d2P_dT2 := v_d2P_dT2 d; d2P_dV2 := v_d2P_dV2 d;
        d2V_dT2 := v_d2V_dT2 d; d2V_dP2 := v_d2V_dP2 d;
        d2T_dV2 := v_d2T_dV2 d; d2T_dP2 := v_d2T_dP2 d;
        d2V_dPdT := v_d2V_dPdT d; d2P_dTdV := v_d2P_dTdV d;
        d2T_dPdV := v_d2T_dPdV d;
        H_dep := v_H_dep d; S_dep := v_S_dep d; V_dep := V_dep;
        U_dep := U_dep; G_dep := G_dep; A_dep := A_dep;
        fugacity := fugacity; phi := phi;
        Cp_dep := Cp_dep; Cv_dep := v_Cv_dep d |}.

(** The final test of [set_properties_from_solution]:
    [force_l or (not force_g and PIP > 1.00000000000001)]. *)
Definition stores_liquid (force_l force_g : bool) (pip : float) : bool :=
  force_l || (negb force_g && (1.00000000000001 <? pip)).

Definition set_properties_from_solution (s : EOS)
    (T P V b delta epsilon a_alpha da_alpha_dT d2a_alpha_dT2 : float)
    (force_l force_g : bool) : result (EOS * Phase) :=
  r <- properties_from_solution T P V b delta epsilon a_alpha
         da_alpha_dT d2a_alpha_dT2 ;;
  if stores_liquid force_l force_g (PIP r)
  then Ok (set_liquid s r, PhaseL)
  else Ok (set_gas s r, PhaseG).

End Properties.

(** ** The phase selector *)

(** The filter of [set_from_PT]:
    [(i.real == 0 or abs(i.imag/i.real) < 1E-12) and i.real > b].
    Python evaluates the quotient only when [i.real] is not zero, so the
    division never raises; on a zero real part the left disjunct already
    decides, whatever the primitive quotient is. *)
Definition good_root (b : float) (i : num) : bool :=
  ((real i =? 0) || (abs (imag i / real i) <? 1e-12)) && (b <? real i).

Definition good_roots (b : float) (Vs : list num) : list float :=
  map real (filter (good_root b) Vs).

(** [min] and [max] of a non-empty list: the first element is replaced by
    a later one that compares strictly below (above) it. *)
Definition py_min (x : float) (xs : list float) : float :=
  fold_left (fun m y => if y <? m then y else m) xs x.

Definition py_max (x : float) (xs : list float) : float :=
  fold_left (fun m y => if m <? y then y else m) xs x.

Definition phase_eqb (x y : Phase) : bool :=
  match x, y with
  | PhaseL, PhaseL | PhaseG, PhaseG | PhaseLG, PhaseLG => true
  | _, _ => false
  end.

(** The critical-point test of [set_from_PT]:
    [self.N == 1 and ((self.multicomponent and (self.Tcs[0] == self.T and
    self.Pcs[0] == self.P)) or (not self.multicomponent and
    self.Tc == self.T and self.Pc == self.P))]. *)
Definition at_critical_point (s : EOS) (T P : float) : result bool :=
  if Nat.eqb (N s) 1 then
    if multicomponent s then
      match Tcs s with
      | [] => Raise IndexError
      | tc :: _ =>
          if tc =? T then
            match Pcs s with
            | [] => Raise IndexError
            | pc :: _ => Ok (pc =? P)
            end
          else Ok false
      end
    else Ok ((Tc s =? T) && (Pc s =? P))
  else Ok false.

Section Selector.

Variable nm : Numerics.

(** One call [self.set_properties_from_solution(self.T, self.P, V, self.b,
    ...)] with the object's own coefficients. *)
Definition set_properties (s : EOS) (V : float) (force_l force_g : bool)
    : result (EOS * Phase) :=
  T <- the (T s) ;;
  P <- the (P s) ;;
  set_properties_from_solution nm s T P V (b s) (delta s) (epsilon s)
    (a_alpha s) (da_alpha_dT s) (d2a_alpha_dT2 s) force_l force_g.

Definition set_from_PT (s : EOS) (Vs : list num) (only_l only_g : bool)
    : result EOS :=
  match good_roots (b s) Vs with
  | [] =>
      Raise (NoAcceptableRoots Vs (T s) (P s) (a_alpha s) (b s))
  | [V0] =>
      ' (s1, ph) <- set_properties s V0 false false ;;
      let s2 := set_phase s1 ph in
      T <- the (T s2) ;;
      P <- the (P s2) ;;
      crit <- at_critical_point s2 T P ;;
      if crit then
        let force_l := negb (phase_eqb ph PhaseL) in
        let force_g := negb (phase_eqb ph PhaseG) in
        ' (s3, _) <- set_properties s2 V0 force_l force_g ;;
        Ok (set_phase s3 PhaseLG)
      else Ok s2
  | g :: gs =>
      let V_l := py_min g gs in
      let V_g := py_max g gs in
      s1 <- (if only_g then Ok s
             else ' (s', _) <- set_properties s V_l true false ;; Ok s') ;;
      s2 <- (if only_l then Ok s1
             else ' (s', _) <- set_properties s1 V_g false true ;; Ok s') ;;
      Ok (set_phase s2 PhaseLG)
  end.

End Selector.

(** ** The inverse solver: temperature from pressure and volume *)

(** The [solution] argument of [solve_T] when it is not [None]. *)
Inductive Hint : Type := HintL | HintG.

Definition is_g (solution : option Hint) : bool :=
  match solution with Some HintG => true | _ => false end.

(** The closing selection of [solve_T], from the line
    [if solution is not None:] that follows the float conversions. *)
Definition solve_T_pick (solution : option Hint)
    (T_brenth T_secant : option float) : option float :=
  match solution, T_brenth, T_secant with
  | Some h, Some tb, Some ts =>
      match h with
      | HintG => Some (py_max tb [ts])
      | HintL => Some (py_min tb [ts])
      end
  | _, _, _ =>
      match T_brenth, T_secant with
      | None, _ => T_secant
      | Some tb, Some ts =>
          if abs (tb - 298.15) <? abs (ts - 298.15) then Some tb
          else Some ts
      | Some tb, None => Some tb
      end
  end.

Section SolveT.

Variable nm : Numerics.

(** [self.a_alpha_and_derivatives(T, full=False, quick=False)] *)
Variable a_alpha_only : float -> result float.

(** The loop [for low, high in attempt_bounds: try: x = brenth(...);
    break; except: pass], started from the current value [x]. *)
Fixpoint first_bracket (f : float -> result float) (tol : float)
    (bounds : list (float * float)) (x : option float) : option float :=
  match bounds with
  | [] => x
  | (low, high) :: rest =>
      match brenth nm f low high tol None with
      | Ok t => Some t
      | Raise _ => first_bracket f tol rest x
      end
  end.

(** [solve_T] down to the float conversions: the two candidate
    temperatures, each possibly missing.  [V] is a float, so [high_prec]
    is false and [base_tol] is [1e-12]. *)
Definition solve_T_candidates (s : EOS) (P V : float)
    (solution : option Hint) : result (option float * option float) :=
  denominator_inv <- Py.div 1 (V * V + delta s * V + epsilon s) ;;
  V_minus_b_inv <- Py.div 1 (V - b s) ;;
  let to_solve := fun T : float =>
    a <- a_alpha_only T ;;
    let P_calc := R nm * T * V_minus_b_inv - a * denominator_inv in
    Ok (P_calc - P) in
  let T_guess_ig := P * V * R_inv nm in
  let T_guess_liq := P * V * R_inv nm * 1000 in
  err_ig <- to_solve T_guess_ig ;;
  err_liq <- to_solve T_guess_liq ;;
  let base_tol := 1e-12 in
  let T_brenth :=
    if (err_ig * err_liq <? 0) && (T_guess_liq <? 3e4)
    then attempt (brenth nm to_solve T_guess_ig T_guess_liq base_tol
                    (Some (err_ig, err_liq)))
    else None in
  let ig_first :=
    (abs err_ig <? abs err_liq) || (20000 <? T_guess_liq)
    || is_g solution in
  let T_guess := if ig_first then T_guess_ig else T_guess_liq in
  let f0 := if ig_first then err_ig else err_liq in
  ' (T_brenth, T_secant) <-
    match secant nm to_solve T_guess 1e-12 base_tol 1e4 f0 with
    | Ok t => Ok (T_brenth, Some t)
    | Raise _ =>
        let T_guess :=
          if negb (T_guess =? T_guess_ig) then T_guess_ig
          else T_guess_liq in
        match secant nm to_solve T_guess 1e-12 base_tol 1e4 f0 with
        | Ok t => Ok (T_brenth, Some t)
        | Raise _ =>
            match T_brenth with
            | None =>
                t <- brenth nm to_solve 1e-3 1e4 base_tol None ;;
                Ok (Some t, None)
            | Some _ => Ok (T_brenth, None)
            end
        end
    end ;;
  match solution with
  | None => Ok (T_brenth, T_secant)
  | Some _ =>
      let widen :=
        if 1e5 <? T_guess_liq
        then [(1e4, T_guess_liq); (T_guess_liq, T_guess_liq * 10)]
        else [] in
      let retry :=
        match T_brenth, T_secant with
        | None, _ => true
        | Some tb, Some ts => isclose nm tb ts 1e-7
        | Some _, None => false
        end in
      let T_brenth :=
        if retry then
          let attempt_bounds :=
            match T_secant with
            | Some ts =>
                [(1e-3, ts - 1e-5); (ts + 1e-3, 1e4); (ts + 1e-3, 1e5)]
            | None => [(1e-3, 1e4); (1e4, 1e5)]
            end ++ widen in
          first_bracket to_solve base_tol attempt_bounds T_brenth
        else T_brenth in
      let T_secant :=
        match T_secant with
        | None =>
            first_bracket to_solve base_tol
              ([(1e4, 1e5); (1e-3, 1e4)] ++ widen) None
        | Some _ => T_secant
        end in
      Ok (T_brenth, T_secant)
  end.

(** [GCEOS.solve_T]: it marks the object ([self.no_T_spec = True]) and
    returns the selected temperature. *)
Definition solve_T (s : EOS) (P V : float) (solution : option Hint)
    : result (EOS * option float) :=
  ' (T_brenth, T_secant) <- solve_T_candidates s P V solution ;;
  Ok (set_no_T_spec s, solve_T_pick solution T_brenth T_secant).

End SolveT.

(** ** Volume solutions *)

Section Volumes.

Variable nm : Numerics.

Section LowP.

Variables T P b delta epsilon a_alpha : float.

(** [err_fun] of [volume_solutions_NR_low_P]. *)
Definition err_fun (V : float) : result float :=
  denom1 <- Py.div 1 (V * (V + delta) + epsilon) ;;
  denom0 <- Py.div 1 (V - b) ;;
  let w0 := R nm * T * denom0 in
  let w1 := a_alpha * denom1 in
  Ok (w0 - w1 - P).

(** The inner loop [for _ in range(31)], from the iterate [V] with the
    last error [err] and the running [rel_err]; it returns the final
    iterate and [rel_err]. *)
Fixpoint low_P_newton (fuel : nat) (P_inv damping Vi V err rel_err : float)
    : result (float * float) :=
  match fuel with
  | O => Ok (V, rel_err)
  | S fuel' =>
      denom1 <- Py.div 1 (V * (V + delta) + epsilon) ;;
      denom0 <- Py.div 1 (V - b) ;;
      let w0 := R nm * T * denom0 in
      let w1 := a_alpha * denom1 in
      if w0 - w1 - P =? err then Ok (V, rel_err)
      else
        let err := w0 - w1 - P in
        let derr_dV := (V + V + delta) * w1 * denom1 - w0 * denom0 in
        let V := if negb (derr_dV =? 0)
                 then V - err / derr_dV * damping else V in
        let rel_err := abs (err * P_inv) in
        if (rel_err <? 1e-14) || (V =? Vi) then Ok (V, rel_err)
        else low_P_newton fuel' P_inv damping Vi V err rel_err
  end.

(** The bracketing rescue of one root, the body of the outer [try]. *)
Definition low_P_bracket (damping : float) : result float :=
  V <- match brenth nm err_fun (b * (1 + 1e-12)) (b * 1.5) 1e-14 None with
       | Ok V => Ok V
       | Raise e =>
           if a_alpha <? 1e-5
           then brenth nm err_fun (b * 1.5) (b * 5) 1e-14 None
           else Raise e
       end ;;
  denom1 <- Py.div 1 (V * (V + delta) + epsilon) ;;
  denom0 <- Py.div 1 (V - b) ;;
  let w0 := R nm * T * denom0 in
  let w1 := a_alpha * denom1 in
  let err := w0 - w1 - P in
  let derr_dV := (V + V + delta) * w1 * denom1 - w0 * denom0 in
  q <- Py.div err derr_dV ;;
  let V_1NR := V - q * damping in
  r <- Py.div (V_1NR - V) V ;;
  if abs r <? 1e-10 then Ok V_1NR else Ok V.

(** One pass of the outer loop for the root of index [i] seeded at
    [Vi]; [rel_err] is carried from one pass to the next. *)
Definition low_P_root (i : nat) (P_inv Vi rel_err : float)
    : result (num * float) :=
  let damping := 1 in
  ' (V, rel_err) <- low_P_newton 31 P_inv damping Vi Vi 0 rel_err ;;
  let V :=
    if (Nat.eqb i 1 && (1.5 * b <? V)) || (V <? b)
    then match low_P_bracket damping with
         | Ok V' => Float V'
         | Raise _ => j1
         end
    else Float V in
  let V := if Nat.eqb i 0 && (1e-8 <? rel_err) then j1 else V in
  Ok (V, rel_err).

Definition volume_solutions_NR_low_P : result (list num) :=
  P_inv <- Py.div 1 P ;;
  V0 <- Py.div (R nm * T) P ;;
  let V1 := b * 1.000001 in
  ' (r0, rel_err) <- low_P_root 0 P_inv V0 0 ;;
  ' (r1, _) <- low_P_root 1 P_inv V1 rel_err ;;
  Ok [r0; r1; j1].

End LowP.

(** The tiers of [volume_solutions_NR] that are not interpreted here:
    the arbitrary-precision solver, and everything below the low-pressure
    test (closed forms, Newton polishing, retries with [tries + 1]). *)
Record Tiers : Type := {
  volume_solutions_mpmath_float :
    float -> float -> float -> float -> float -> float -> result (list num);
  polished_closed_forms :
    float -> float -> float -> float -> float -> float -> result (list num)
}.

Variable tr : Tiers.

Definition volume_solutions_NR (T P b delta epsilon a_alpha : float)
    : result (list num) :=
  if a_alpha =? 0 then
    q <- Py.div (R nm * T) P ;;
    Ok [Float (b + q); neg_j1; neg_j1]
  else
    let below := polished_closed_forms tr T P b delta epsilon a_alpha in
    if P <? 1e-2 then
      match volume_solutions_NR_low_P T P b delta epsilon a_alpha with
      | Ok Vs => Ok Vs
      | Raise _ =>
          match volume_solutions_mpmath_float tr T P b delta epsilon
                  a_alpha with
          | Ok Vs => Ok Vs
          | Raise _ => below
          end
      end
    else below.

End Volumes.

(** ** Equation-of-state families and [solve] *)

(** What a subclass of [GCEOS] supplies or overrides.  The alpha function
    is called as [a_alpha_and_derivatives(T, full=, quick=, pure_a_alphas=)]
    and answers a triple when [full] is true, a single value otherwise. *)
Record Family : Type := {
  alpha_full : float -> bool -> bool -> result (float * float * float);
  alpha_only : float -> bool -> bool -> result float;
  solve_T_method :
    EOS -> float -> float -> option Hint -> result (EOS * option float);
  volume_solutions :
    float -> float -> float -> float -> float -> float -> result (list num)
}.

(** A family that overrides nothing: [GCEOS.solve_T] and the default
    [volume_solutions = volume_solutions_NR]. *)
Definition GCEOS_family (nm : Numerics) (tr : Tiers)
    (full : float -> bool -> bool -> result (float * float * float))
    (only : float -> bool -> bool -> result float) : Family :=
  {| alpha_full := full;
     alpha_only := only;
     solve_T_method := solve_T nm (fun T => only T false true);
     volume_solutions := volume_solutions_NR nm tr |}.

(** The class [IG]: zero alpha function, [solve_T] and [volume_solutions]
    replaced by the ideal-gas law.  Its read-only properties that answer
    [0.0] for some gas attributes are not part of the embedding: a record
    holds the values the property setter computed. *)
Definition IG_family (nm : Numerics) : Family :=
  {| alpha_full := fun _ _ _ => Ok (0, 0, 0);
     alpha_only := fun _ _ _ => Ok 0;
     solve_T_method := fun s P V _ =>
       Ok (set_no_T_spec s, Some (P * V * R_inv nm));
     volume_solutions := fun T P _ _ _ _ =>
       q <- Py.div (R nm * T) P ;;
       Ok [Float q; neg_j1; neg_j1] |}.

Definition check_sufficient_inputs (s : EOS) : result unit :=
  match T s, P s, V s with
  | Some _, Some _, _ | Some _, _, Some _ | _, Some _, Some _ => Ok tt
  | _, _, _ => Raise InsufficientInputs
  end.

(** The [solution] hint [solve] hands to [solve_T]:
    ['g' if (only_g and not only_l) else ('l' if only_l else None)]. *)
Definition hint_of (only_l only_g : bool) : option Hint :=
  if only_g && negb only_l then Some HintG
  else if only_l then Some HintL else None.

Section Solve.

Variable nm : Numerics.
Variable fam : Family.

(** The EOS relation evaluated by the TV branch:
    [R*T/(V-self.b) - self.a_alpha/(V*V + self.delta*V + self.epsilon)]. *)
Definition pressure_TV (T V b delta epsilon a_alpha : float)
    : result float :=
  q1 <- Py.div (R nm * T) (V - b) ;;
  q2 <- Py.div a_alpha (V * V + delta * V + epsilon) ;;
  Ok (q1 - q2).

(** [solve] up to its last line: the updated object and the list [Vs]
    that is about to be handed to [set_from_PT]. *)
Definition solve_candidates (s : EOS)
    (pure_a_alphas only_l only_g full_alphas : bool)
    : result (EOS * list num) :=
  _ <- check_sufficient_inputs s ;;
  match V s with
  | Some V =>
      match P s with
      | Some P =>
          let solution := hint_of only_l only_g in
          ' (s, T') <- solve_T_method fam s P V solution ;;
          let s := set_T s T' in
          T <- the (T s) ;;
          ' (a, da, d2a) <- alpha_full fam T true pure_a_alphas ;;
          Ok (set_alphas s a da d2a, [Float V; j1; j1])
      | None =>
          T <- the (T s) ;;
          ' (a, da, d2a) <- alpha_full fam T true pure_a_alphas ;;
          let s := set_alphas s a da d2a in
          P <- pressure_TV T V (b s) (delta s) (epsilon s) (a_alpha s) ;;
          let s := set_P s P in
          if P <=? 0 then Raise (NegativePressure P)
          else Ok (s, [Float V; j1; j1])
      end
  | None =>
      T <- the (T s) ;;
      P <- the (P s) ;;
      s <- (if full_alphas then
              ' (a, da, d2a) <- alpha_full fam T true pure_a_alphas ;;
              Ok (set_alphas s a da d2a)
            else
              a <- alpha_only fam T true pure_a_alphas ;;
              Ok (set_alphas s a (-5e-3) 1.5e-5)) ;;
      Vs <- volume_solutions fam T P (b s) (delta s) (epsilon s)
              (a_alpha s) ;;
      Ok (set_raw_volumes s Vs, Vs)
  end.

Definition solve (s : EOS) (pure_a_alphas only_l only_g full_alphas : bool)
    : result EOS :=
  ' (s, Vs) <- solve_candidates s pure_a_alphas only_l only_g full_alphas ;;
  set_from_PT nm s Vs only_l only_g.

(** A family constructor called with two state variables: the class
    constants and coefficients are recomputed from the same [Tc], [Pc],
    [omega], every solved attribute is absent, and [solve()] runs with
    its default arguments. *)
Definition blank (s : EOS) (T P V : option float) : EOS :=
  {| T := T; P := P; V := V; Tc := Tc s; Pc := Pc s; N := N s;
     multicomponent := multicomponent s; Tcs := Tcs s; Pcs := Pcs s;
     b := b s; delta := delta s; epsilon := epsilon s;
     a_alpha := 0; da_alpha_dT := 0; d2a_alpha_dT2 := 0;
     raw_volumes := None; no_T_spec := false;
     liquid := None; gas := None; phase := None |}.

Definition construct (s : EOS) (T P V : option float) : result EOS :=
  solve (blank s T P V) true false false true.

Definition differs (x : float) (o : option float) : bool :=
  match o with Some y => negb (x =? y) | None => true end.

(** [to_TV]: [if T != self.T or V != self.V] a new object, else [self]. *)
Definition to_TV (s : EOS) (T' V' : float) : result EOS :=
  if differs T' (T s) || differs V' (V s)
  then construct s (Some T') None (Some V')
  else Ok s.

End Solve.

(** ** A concrete set of collaborators

    The gas constant of [fluids.constants] and the values of the
    transcendental functions that C99 fixes exactly ([atanh 0 = 0],
    [log 1 = 0], [exp 0 = 1]), with their domain errors; every other value
    is left uninterpreted as NaN.  No scalar solver is available.  The
    concrete runs below read none of the uninterpreted values. *)
Definition table_numerics : Numerics :=
  {| R := 8.31446261815324;
     catanh_real := fun x =>
       if abs x =? 1 then None else if x =? 0 then Some x else Some nan;
     clog_real := fun x =>
       if x =? 0 then None else if x =? 1 then Some 0 else Some nan;
     log := fun x =>
       if x <=? 0 then None else if x =? 1 then Some 0 else Some nan;
     exp := fun x => if x =? 0 then Some 1 else Some nan;
     pow_neg_half := fun x => 1 / sqrt x;
     brenth := fun _ _ _ _ _ => Raise (External 0);
     secant := fun _ _ _ _ _ _ => Raise (External 1);
     isclose := fun a b rel_tol =>
       abs (a - b) <=? rel_tol * (if abs a <? abs b then abs b else abs a) |}.

(** A single-component object before [solve()]. *)
Definition eos_object (T P V : option float)
    (Tc Pc b delta epsilon : float) : EOS :=
  {| T := T; P := P; V := V; Tc := Tc; Pc := Pc; N := 1;
     multicomponent := false; Tcs := []; Pcs := [];
     b := b; delta := delta; epsilon := epsilon;
     a_alpha := 0; da_alpha_dT := 0; d2a_alpha_dT2 := 0;
     raw_volumes := None; no_T_spec := false;
     liquid := None; gas := None; phase := None |}.

(** An object of class [IG] before [solve()]. *)
Definition IG_object (T P V : option float) : EOS :=
  eos_object T P V 190.564 4599000 0 0 0.

(** No tier beyond the interpreted ones is available. *)
Definition no_tiers : Tiers :=
  {| volume_solutions_mpmath_float := fun _ _ _ _ _ _ => Raise (External 2);
     polished_closed_forms := fun _ _ _ _ _ _ => Raise (External 3) |}.

(** A family that overrides nothing and whose alpha function is constant. *)
Definition constant_alpha_family (a : float) : Family :=
  GCEOS_family table_numerics no_tiers
    (fun _ _ _ => Ok (a, 0, 0)) (fun _ _ _ => Ok a).

(** ** Departure derivatives read from a solved object *)

Section DepartureDerivatives.

Variable nm : Numerics.



End DepartureDerivatives.

(** ** Vocabulary of the statements *)

(** A float that is a number: it compares equal to itself. *)
Definition is_number (x : float) : Prop := (x =? x) = true.

(** [m] is a least (greatest) element of [l] for the float order. *)
Definition is_minimum (m : float) (l : list float) : Prop :=
  In m l /\ forall x, In x l -> (m <=? x) = true.

Definition is_maximum (m : float) (l : list float) : Prop :=
  In m l /\ forall x, In x l -> (x <=? m) = true.

(** The two halves of the root filter, as the code writes them: the first
    half is [i.real == 0 or abs(i.imag/i.real) < 1E-12], so that a real
    part which is exactly zero passes it whatever the imaginary part. *)
Definition numerically_real (i : num) : bool :=
  (real i =? 0) || (abs (imag i / real i) <? 1e-12).

(** A valid root in the words of the specification: [|imag/real| < 1e-12]
    (numerically real) and [real > b].  There is no clause for a zero real
    part; the quotient is the IEEE one, so the placeholder [1j] gives
    [inf] and does not pass. *)
Definition claimed_numerically_real (i : num) : bool :=
  abs (imag i / real i) <? 1e-12.

Definition claimed_valid_root (b : float) (i : num) : bool :=
  claimed_numerically_real i && (b <? real i).

Definition exceeds (b : float) (i : num) : bool := b <? real i.

(** The single-component critical point, in either representation of the
    critical constants. *)
Definition critical_state (s : EOS) (t p : float) : Prop :=
  N s = 1%nat /\
  if multicomponent s then
    exists tc pc tcs pcs,
      Tcs s = tc :: tcs /\ Pcs s = pc :: pcs /\
      (tc =? t) = true /\ (pc =? p) = true
  else (Tc s =? t) = true /\ (Pc s =? p) = true.

(** What the selector does with two or more valid roots, for each setting
    of the two flags. *)
Definition two_root_outcome (s s' : EOS) (only_l only_g : bool)
    (roots : list float) : Prop :=
  phase s' = Some PhaseLG
  /\ (if only_g then liquid s' = liquid s
      else exists rl, liquid s' = Some rl /\ is_minimum (V_ rl) roots)
  /\ (if only_l then gas s' = gas s
      else exists rg, gas s' = Some rg /\ is_maximum (V_ rg) roots).

(** What [solve_T] answers from two candidate temperatures. *)
Definition selection_rule (solution : option Hint) (tb ts r : float)
    : Prop :=
  (r = tb \/ r = ts)
  /\ match solution with
     | Some HintL => (r <=? tb) = true /\ (r <=? ts) = true
     | Some HintG => (tb <=? r) = true /\ (ts <=? r) = true
     | None =>
         is_number (abs (tb - 298.15)) -> is_number (abs (ts - 298.15)) ->
         (abs (r - 298.15) <=? abs (tb - 298.15)) = true
         /\ (abs (r - 298.15) <=? abs (ts - 298.15)) = true
     end.

(** The exceptions of arithmetic and of the transcendental functions. *)
Definition arithmetic_exn (e : exn) : Prop :=
  e = ZeroDivisionError \/ e = MathDomainError \/ e = ComplexPower.

(** The exceptions [set_from_PT] can end with. *)
Definition selector_exn (e : exn) : Prop :=
  arithmetic_exn e \/ e = TypeErrorNone \/ e = IndexError
  \/ exists Vs T P a b, e = NoAcceptableRoots Vs T P a b.

(** A family whose [solve_T] leaves the object as [GCEOS.solve_T] does:
    marked with [no_T_spec], otherwise untouched. *)
Definition marks_only (fam : Family) : Prop :=
  forall s P V solution s1 T',
    solve_T_method fam s P V solution = Ok (s1, T') -> s1 = set_no_T_spec s.


(** [family] with its [volume_solutions] method replaced. *)
Definition with_volume_solutions (fam : Family)
    (vs : float -> float -> float -> float -> float -> float ->
          result (list num)) : Family :=
  {| alpha_full := alpha_full fam; alpha_only := alpha_only fam;
     solve_T_method := solve_T_method fam; volume_solutions := vs |}.

(** ** Concrete scenarios *)

Definition zero_record : PhaseRecord :=
  {| V_ := 0; Z_ := 0; beta := 0; kappa := 0; PIP := 0; Cp_minus_Cv := 0;
     dP_dT := 0; dP_dV := 0; dV_dT := 0; dV_dP := 0; dT_dV := 0; dT_dP := 0;
     d2P_dT2 := 0; d2P_dV2 := 0; d2V_dT2 := 0; d2V_dP2 := 0; d2T_dV2 := 0;
     d2T_dP2 := 0; d2V_dPdT := 0; d2P_dTdV := 0; d2T_dPdV := 0;
     H_dep := 0; S_dep := 0; V_dep := 0; U_dep := 0; G_dep := 0; A_dep := 0;
     fugacity := 0; phi := 0; Cp_dep := 0; Cv_dep := 0 |}.

Definition value_or {A} (d : A) (m : result A) : A :=
  match m with Ok a => a | Raise _ => d end.

(** The doctest of class [IG]: [IG(T=400., P=1E6)], whose single root is
    [V_g = 0.003325785047261296]. *)
Definition IG_example : EOS := IG_object (Some 400) (Some 1e6) None.

Definition IG_example_gas : PhaseRecord :=
  Eval vm_compute in
    value_or zero_record
      (properties_from_solution table_numerics 400 1e6
         0.003325785047261296 0 0 0 0 0 0).

(** Class [IG] at its own critical constants, [T = Tc] and [P = Pc]. *)
Definition IG_critical : EOS := IG_object (Some 190.564) (Some 4599000) None.

Definition IG_critical_root : float :=
  Eval vm_compute in R table_numerics * 190.564 / 4599000.

Definition IG_critical_record : PhaseRecord :=
  Eval vm_compute in
    value_or zero_record
      (properties_from_solution table_numerics 190.564 4599000
         IG_critical_root 0 0 0 0 0 0).

(** An object handed a root list with two valid roots. *)
Definition two_root_state : EOS := IG_object (Some 300) (Some 1e5) None.

Definition two_root_list : list num := [Float 0.02; Float 0.03; j1].

Definition two_root_solved : EOS :=
  Eval vm_compute in
    value_or two_root_state
      (set_from_PT table_numerics two_root_state two_root_list false false).

Definition two_root_only_l : EOS :=
  Eval vm_compute in
    value_or two_root_state
      (set_from_PT table_numerics two_root_state two_root_list true false).

(** A TV specification whose attraction term outweighs the repulsion. *)
Definition tv_negative_state : EOS :=
  eos_object (Some 1) None (Some 1) 500 3e6 0 0 0.

Definition tv_negative_pressure : float :=
  Eval vm_compute in
    value_or 0 (pressure_TV table_numerics 1 1 0 0 0 100).

(** Stand-ins for the scalar solvers: a bracketing solver that stops after
    one bisection step, and a secant solver that stops at its seed. *)
Definition midpoint_numerics : Numerics :=
  {| R := R table_numerics;
     catanh_real := catanh_real table_numerics;
     clog_real := clog_real table_numerics;
     log := log table_numerics;
     exp := exp table_numerics;
     pow_neg_half := pow_neg_half table_numerics;
     brenth := fun _ lo hi _ _ => Ok ((lo + hi) / 2);
     secant := fun _ x0 _ _ _ _ => Ok x0;
     isclose := isclose table_numerics |}.

(** A PV specification, [P = 1e5] and [V = 1e-3], with a constant alpha
    function [a_alpha = 0.1]. *)
Definition pv_state : EOS :=
  eos_object None (Some 1e5) (Some 1e-3) 500 3e6 0 0 0.

Definition pv_candidates : option float * option float :=
  Eval vm_compute in
    value_or (None, None)
      (solve_T_candidates midpoint_numerics (fun _ => Ok 0.1) pv_state
         1e5 1e-3 (Some HintL)).

Definition pv_brenth : float :=
  Eval vm_compute in
    match fst pv_candidates with Some x => x | None => nan end.

Definition pv_secant : float :=
  Eval vm_compute in
    match snd pv_candidates with Some x => x | None => nan end.

(** The TV counterpart of the [IG] doctest. *)
Definition tv_state : EOS :=
  IG_object (Some 400) None (Some 0.003325785047261296).

Definition tv_solved : EOS :=
  Eval vm_compute in
    value_or tv_state
      (solve table_numerics (IG_family table_numerics) tv_state
         true false false true).

Definition tv_pressure : float :=
  Eval vm_compute in match P tv_solved with Some x => x | None => nan end.

(** A TV specification with a negative covolume [b], solved with
    [only_g=True]. *)
Definition negative_b_state : EOS :=
  eos_object (Some 300) None (Some 0.02) 500 3e6 (-1e-5) 0 0.

Definition negative_b_solved : EOS :=
  Eval vm_compute in
    value_or negative_b_state
      (solve table_numerics (constant_alpha_family 0.1) negative_b_state
         true false true true).



(** The coefficients as [PR.__init__] sets them:
    [b = c2*R*Tc_Pc], [delta = 2.*b], [epsilon = -b*b]. *)
Definition PR_c2 : float := 0.0777960739038884559718447100373331839711.

Definition PR_object (nm : Numerics) (Tc Pc : float)
    (T P V : option float) : EOS :=
  let Tc_Pc := Tc / Pc in
  let b := PR_c2 * R nm * Tc_Pc in
  eos_object T P V Tc Pc b (2 * b) ((- b) * b).

(** Peng-Robinson coefficients of n-hexane ([Tc = 507.6], [Pc = 3025000])
    at [T = 300] and [P = 1e-4], with the alpha function frozen at
    [a_alpha = 3.8]. *)
Definition low_pressure_state : EOS :=
  PR_object table_numerics 507.6 3025000 (Some 300) (Some 1e-4) None.

Definition low_pressure_solved : EOS :=
  Eval vm_compute in
    value_or low_pressure_state
      (solve table_numerics (constant_alpha_family 3.8) low_pressure_state
         true false false true).

Definition low_pressure_liquid : PhaseRecord :=
  Eval vm_compute in
    match liquid low_pressure_solved with Some r => r | None => zero_record end.

Definition low_pressure_gas : PhaseRecord :=
  Eval vm_compute in
    match gas low_pressure_solved with Some r => r | None => zero_record end.




(** ** Further methods of [GCEOS] *)

(** [state_specs]: the dictionary of the two specified state variables, in
    insertion order. *)
Definition state_specs (s : EOS) : list (String.string * option float) :=
  if no_T_spec s then [("P"%string, P s); ("V"%string, V s)]
  else match V s with
       | Some _ => [("T"%string, T s); ("V"%string, V s)]
       | None => [("T"%string, T s); ("P"%string, P s)]
       end.

(** The value a keyword argument receives from a dictionary passed as
    keyword arguments: its entry, or the default [None]. *)
Fixpoint keyword (k : String.string)
    (d : list (String.string * option float)) : option float :=
  match d with
  | [] => None
  | (k', v) :: rest => if String.eqb k k' then v else keyword k rest
  end.

(** How a class reads the attribute [G_dep_g].  Class [IG] declares
    [G_dep_g = property(_zero, _set_nothing)]: on its objects the
    attribute reads [0.0] whether or not a gas root was stored, and what
    [set_properties_from_solution] assigns to it is dropped.  The other
    classes read the instance attribute, which exists once a gas root was
    stored.  [G_dep_l] and [Z_g] are instance attributes in every class. *)
Inductive AttributeClass : Type := InstanceAttributes | IGProperties.

Definition read_G_dep_l (s : EOS) : option float :=
  option_map G_dep (liquid s).

Definition read_G_dep_g (c : AttributeClass) (s : EOS) : option float :=
  match c with
  | IGProperties => Some 0
  | InstanceAttributes => option_map G_dep (gas s)
  end.

(** [more_stable_phase]: [try: 'l' if self.G_dep_l < self.G_dep_g else
    'g'], and when one of the two reads raises, ['g'] if [self.Z_g]
    exists, else ['l']. *)
Definition more_stable_phase (c : AttributeClass) (s : EOS) : Phase :=
  match read_G_dep_l s, read_G_dep_g c s with
  | Some g_l, Some g_g => if g_l <? g_g then PhaseL else PhaseG
  | _, _ => match gas s with Some _ => PhaseG | None => PhaseL end
  end.

Section Methods.

Variable nm : Numerics.
Variable fam : Family.

(** [to_TP]: [if T != self.T or P != self.P] a new object, else [self]. *)
Definition to_TP (s : EOS) (T' P' : float) : result EOS :=
  if differs T' (T s) || differs P' (P s)
  then construct nm fam s (Some T') (Some P') None
  else Ok s.

(** [to_PV]: [if P != self.P or V != self.V] a new object, else [self]. *)
Definition to_PV (s : EOS) (P' V' : float) : result EOS :=
  if differs P' (P s) || differs V' (V s)
  then construct nm fam s None (Some P') (Some V')
  else Ok s.

(** [to(T=None, P=None, V=None)], for the classes whose constructor stores
    its arguments and runs [solve()], as [construct] does; the class
    [GCEOS_DUMMY], whose constructor never solves, is not one of them. *)
Definition to (s : EOS) (T' P' V' : option float) : result EOS :=
  match T', P', V' with
  | Some t, Some p, _ => to_TP s t p
  | Some t, _, Some v => to_TV nm fam s t v
  | _, Some p, Some v => to_PV s p v
  | _, _, _ => construct nm fam s T' P' V'
  end.

(** [self.to] called with the dictionary [d] as its keyword arguments. *)
Definition to_keywords (s : EOS)
    (d : list (String.string * option float)) : result EOS :=
  to s (keyword "T" d) (keyword "P" d) (keyword "V" d).

(** [resolve_full_alphas]: the alpha function is evaluated anew and the
    stored raw roots are handed back to the selector, with
    [only_l=hasattr(self, 'V_l')] and [only_g=hasattr(self, 'V_g')]. *)
Definition resolve_full_alphas (s : EOS) : result EOS :=
  t <- the (T s) ;;
  ' (a, da, d2a) <- alpha_full fam t true false ;;
  let s := set_alphas s a da d2a in
  match raw_volumes s with
  | None => Raise AttributeError
  | Some Vs =>
      set_from_PT nm s Vs
        (match liquid s with Some _ => true | None => false end)
        (match gas s with Some _ => true | None => false end)
  end.

End Methods.

(** Two objects that differ at most in their phase records and tag. *)
Definition same_frame (s s' : EOS) : Prop :=
  T s' = T s /\ P s' = P s /\ V s' = V s
  /\ Tc s' = Tc s /\ Pc s' = Pc s /\ N s' = N s
  /\ multicomponent s' = multicomponent s
  /\ Tcs s' = Tcs s /\ Pcs s' = Pcs s
  /\ b s' = b s /\ delta s' = delta s /\ epsilon s' = epsilon s
  /\ a_alpha s' = a_alpha s /\ da_alpha_dT s' = da_alpha_dT s
  /\ d2a_alpha_dT2 s' = d2a_alpha_dT2 s
  /\ raw_volumes s' = raw_volumes s /\ no_T_spec s' = no_T_spec s.

(** An entry of a root list as the low-pressure solver leaves it: a float,
    or the placeholder [1j]. *)
Definition float_or_placeholder (z : num) : Prop :=
  (exists x, z = Float x) \/ z = j1.

(** The states the selector can return from [s], by the list of valid
    roots: one root stored once or, at the critical point, twice; two or
    more roots stored as the flags allow. *)
Definition selector_result (s s' : EOS) (roots : list float)
    (only_l only_g : bool) : Prop :=
  match roots with
  | [] => False
  | [V0] =>
      exists r, V_ r = V0
        /\ (s' = set_phase (set_liquid s r) PhaseL
            \/ s' = set_phase (set_gas s r) PhaseG
            \/ s' = set_phase
                      (set_gas (set_phase (set_liquid s r) PhaseL) r) PhaseLG
            \/ s' = set_phase
                      (set_liquid (set_phase (set_gas s r) PhaseG) r) PhaseLG)
  | g :: gs =>
      exists s1 s2,
        (if only_g then s1 = s
         else exists r, V_ r = py_min g gs /\ s1 = set_liquid s r)
        /\ (if only_l then s2 = s1
            else exists r, V_ r = py_max g gs /\ s2 = set_gas s1 r)
        /\ s' = set_phase s2 PhaseLG
  end.

Definition two_root_liquid : PhaseRecord :=
  Eval vm_compute in
    match liquid two_root_solved with Some r => r | None => zero_record end.

Definition two_root_gas : PhaseRecord :=
  Eval vm_compute in
    match gas two_root_solved with Some r => r | None => zero_record end.

Definition low_pressure_raw : list num :=
  Eval vm_compute in
    match raw_volumes low_pressure_solved with Some Vs => Vs | None => [] end.

(** A reported specification that is present and is a number. *)
Definition given_number (o : option float) : bool :=
  match o with Some x => x =? x | None => false end.

(** A state on the spinodal: [dP_dV] is exactly zero. *)
Definition spinodal_main : MainDerivs :=
  Eval vm_compute in
    match main_derivatives_and_departures table_numerics 2 1e5 1 0 0 0
            8.31446261815324 0 0 with
    | Ok m => m
    | Raise _ =>
        {| m_dP_dT := nan; m_dP_dV := nan; m_d2P_dT2 := nan;
           m_d2P_dV2 := nan; m_d2P_dTdV := nan;
           m_H_dep := nan; m_S_dep := nan; m_Cv_dep := nan |}
    end.

(** A state whose [dP_dT] is exactly zero. *)
Definition isochoric_flat_main : MainDerivs :=
  Eval vm_compute in
    match main_derivatives_and_departures table_numerics 300 1e5 1 0 0 0
            0.1 8.31446261815324 0 with
    | Ok m => m
    | Raise _ =>
        {| m_dP_dT := nan; m_dP_dV := nan; m_d2P_dT2 := nan;
           m_d2P_dV2 := nan; m_d2P_dTdV := nan;
           m_H_dep := nan; m_S_dep := nan; m_Cv_dep := nan |}
    end.

(** [T_min_at_V(V, Pmin=1e-15)]: [return self.solve_T(P=Pmin, V=V)]. *)
Definition T_min_at_V (nm : Numerics) (a_alpha_only : float -> result float)
    (s : EOS) (V Pmin : float) : result (EOS * option float) :=
  solve_T nm a_alpha_only s Pmin V None.

Definition low_pressure_T_min : option float :=
  Eval vm_compute in
    match T_min_at_V midpoint_numerics (fun _ => Ok 3.8)
            low_pressure_solved 1e-3 1e-15 with
    | Ok (_, r) => r
    | Raise _ => None
    end.

(** A covolume below zero, and a root list without any real root above
    it: [-1] is real and below [b], the placeholders are not real. *)
Definition placeholder_state : EOS :=
  eos_object (Some 300) (Some 1e5) None 500 3e6 (-1e-5) 0 0.

Definition placeholder_list : list num := [Float (-1); j1; j1].

Definition placeholder_tagged : EOS :=
  Eval vm_compute in
    value_or placeholder_state
      (set_from_PT table_numerics placeholder_state placeholder_list
         true true).


(** A class without alpha function whose object sits at its critical
    constants, [T = Tc = 400] and [P = Pc = 1e6]: its single root is
    stored as both phases. *)
Definition tie_state : EOS :=
  eos_object (Some 400) (Some 1e6) None 400 1e6 0 0 0.

Definition tie_solved : EOS :=
  Eval vm_compute in
    value_or tie_state
      (solve table_numerics (constant_alpha_family 0) tie_state
         true false false true).

Definition tie_liquid : PhaseRecord :=
  Eval vm_compute in
    match liquid tie_solved with Some r => r | None => zero_record end.

Definition tie_gas : PhaseRecord :=
  Eval vm_compute in
    match gas tie_solved with Some r => r | None => zero_record end.
(** ** The order of the floats *)

Module FloatOrder.

Definition le_cmp (c : option comparison) : bool :=
  match c with Some (Lt | Eq) => true | _ => false end.

Ltac norm_cmp :=
  repeat match goal with
  | |- context [PosDef.Pos.compare_cont Eq ?a ?b] =>
      change (PosDef.Pos.compare_cont Eq a b) with (Pos.compare a b)
  end.

Lemma SFcompare_antisym (x y : spec_float) :
  SFcompare y x = option_map CompOpp (SFcompare x y).
Proof.
  destruct x as [[|]|[|]| |[|] m1 e1], y as [[|]|[|]| |[|] m2 e2];
    try reflexivity; simpl; norm_cmp;
    rewrite (Z.compare_antisym e1 e2), (Pos.compare_antisym m1 m2);
    destruct (e1 ?= e2)%Z, (m1 ?= m2)%positive; reflexivity.
Qed.

Lemma SFcompare_refl (x : spec_float) :
  x <> S754_nan -> SFcompare x x = Some Eq.
Proof.
  destruct x as [[|]|[|]| |[|] m e]; intros H; try reflexivity;
    try congruence; simpl; norm_cmp;
    rewrite Z.compare_refl, Pos.compare_refl; reflexivity.
Qed.

Lemma SFcompare_le_trans (x y z : spec_float) :
  le_cmp (SFcompare x y) = true -> le_cmp (SFcompare y z) = true ->
  le_cmp (SFcompare x z) = true.
Proof.
  destruct x as [[|]|[|]| |[|] m1 e1], y as [[|]|[|]| |[|] m2 e2],
           z as [[|]|[|]| |[|] m3 e3];
    simpl; try (intros; congruence); try reflexivity;
    norm_cmp;
    destruct (Z.compare_spec e1 e2), (Z.compare_spec e2 e3),
             (Z.compare_spec e1 e3);
    try lia; try (intros; congruence); try reflexivity;
    destruct (Pos.compare_spec m1 m2), (Pos.compare_spec m2 m3),
             (Pos.compare_spec m1 m3);
    simpl; try lia; try (intros; congruence); try reflexivity.
Qed.

(** The primitive tests read through their specification. *)
Lemma ltb_cmp (x y : float) :
  (x <? y) = match SFcompare (Prim2SF x) (Prim2SF y) with
             | Some Lt => true | _ => false end.
Proof. rewrite FloatAxioms.ltb_spec. reflexivity. Qed.

Lemma leb_cmp (x y : float) :
  (x <=? y) = le_cmp (SFcompare (Prim2SF x) (Prim2SF y)).
Proof. rewrite FloatAxioms.leb_spec. reflexivity. Qed.

Lemma eqb_cmp (x y : float) :
  (x =? y) = match SFcompare (Prim2SF x) (Prim2SF y) with
             | Some Eq => true | _ => false end.
Proof. rewrite FloatAxioms.eqb_spec. reflexivity. Qed.

Ltac to_cmp :=
  unfold is_number in *;
  rewrite ?ltb_cmp, ?leb_cmp, ?eqb_cmp in *.

Lemma number_of_cmp (x : float) :
  Prim2SF x <> S754_nan -> is_number x.
Proof.
  intros H. unfold is_number. rewrite eqb_cmp.
  rewrite (SFcompare_refl H). reflexivity.
Qed.

Lemma ltb_is_number (x y : float) :
  (x <? y) = true -> is_number x /\ is_number y.
Proof.
  rewrite ltb_cmp. intros H.
  split; apply number_of_cmp; intros E; rewrite E in H;
    destruct (Prim2SF x), (Prim2SF y); discriminate H.
Qed.

Lemma ltb_leb (x y : float) : (x <? y) = true -> (x <=? y) = true.
Proof.
  to_cmp. destruct (SFcompare (Prim2SF x) (Prim2SF y)) as [[| |]|];
    simpl; congruence.
Qed.

Lemma is_number_cmp (x : float) :
  is_number x -> Prim2SF x <> S754_nan.
Proof.
  to_cmp. intros H E. rewrite E in H. simpl in H. discriminate.
Qed.

Lemma cmp_defined (x y : spec_float) :
  x <> S754_nan -> y <> S754_nan -> SFcompare x y <> None.
Proof.
  destruct x as [[|]|[|]| |[|] m1 e1], y as [[|]|[|]| |[|] m2 e2];
    simpl; congruence.
Qed.

Lemma nltb_leb (x y : float) :
  is_number x -> is_number y -> (y <? x) = false -> (x <=? y) = true.
Proof.
  intros Hx Hy. apply is_number_cmp in Hx, Hy. to_cmp.
  rewrite (SFcompare_antisym (Prim2SF x) (Prim2SF y)).
  pose proof (cmp_defined Hx Hy) as D.
  destruct (SFcompare (Prim2SF x) (Prim2SF y)) as [[| |]|];
    simpl; congruence.
Qed.

Lemma ltb_nleb (x y : float) : (x <? y) = true -> (y <=? x) = false.
Proof.
  to_cmp. rewrite (SFcompare_antisym (Prim2SF x) (Prim2SF y)).
  destruct (SFcompare (Prim2SF x) (Prim2SF y)) as [[| |]|];
    simpl; congruence.
Qed.

Lemma ltb_neqb (x y : float) : (x <? y) = true -> (y =? x) = false.
Proof.
  to_cmp. rewrite (SFcompare_antisym (Prim2SF x) (Prim2SF y)).
  destruct (SFcompare (Prim2SF x) (Prim2SF y)) as [[| |]|];
    simpl; congruence.
Qed.

Lemma leb_refl (x : float) : is_number x -> (x <=? x) = true.
Proof.
  intros H. apply is_number_cmp in H. to_cmp.
  rewrite SFcompare_refl by assumption. reflexivity.
Qed.

Lemma leb_trans (x y z : float) :
  (x <=? y) = true -> (y <=? z) = true -> (x <=? z) = true.
Proof. to_cmp. apply SFcompare_le_trans. Qed.

End FloatOrder.

(** ** Reasoning about the error monad *)

Lemma bind_ok {A B} (m : result A) (k : A -> result B) (y : B) :
  Py.bind m k = Ok y -> exists a, m = Ok a /\ k a = Ok y.
Proof. destruct m as [a|e]; simpl; intros H; [eauto | discriminate]. Qed.

Lemma bind_raise {A B} (m : result A) (k : A -> result B) (e : exn) :
  Py.bind m k = Raise e ->
  m = Raise e \/ exists a, m = Ok a /\ k a = Raise e.
Proof. destruct m as [a|e']; simpl; intros H; [eauto | left; congruence]. Qed.


Lemma div_nonzero (x y : float) :
  (y =? 0) = false -> Py.div x y = Ok (x / y).
Proof. unfold Py.div. intros ->. reflexivity. Qed.

Lemma div_raise (x y : float) (e : exn) :
  Py.div x y = Raise e -> e = ZeroDivisionError /\ (y =? 0) = true.
Proof.
  unfold Py.div. destruct (y =? 0); intros H; [|discriminate].
  split; congruence.
Qed.

Lemma domain_raise (o : option float) (e : exn) :
  Py.domain o = Raise e -> e = MathDomainError.
Proof. destruct o; simpl; congruence. Qed.

Lemma the_raise (o : option float) (e : exn) :
  the o = Raise e -> e = TypeErrorNone.
Proof. destruct o; simpl; congruence. Qed.

(** ** The root filter *)

Lemma good_root_split (b : float) (i : num) :
  good_root b i = numerically_real i && exceeds b i.
Proof. reflexivity. Qed.

Lemma good_roots_nil (b : float) (Vs : list num) :
  (forall i, In i Vs -> numerically_real i && exceeds b i = false) ->
  good_roots b Vs = [].
Proof.
  intros H. unfold good_roots.
  induction Vs as [|i Vs IH]; simpl; [reflexivity|].
  rewrite good_root_split, (H i (or_introl eq_refl)).
  apply IH. intros k Hk. apply H. right. exact Hk.
Qed.

Lemma good_roots_are_good (b : float) (Vs : list num) (x : float) :
  In x (good_roots b Vs) ->
  exists i, In i Vs /\ good_root b i = true /\ real i = x.
Proof.
  unfold good_roots. rewrite in_map_iff.
  intros [i [E Hi]]. apply filter_In in Hi. exists i. tauto.
Qed.

Lemma good_roots_exceed (b : float) (Vs : list num) (x : float) :
  In x (good_roots b Vs) -> (b <? x) = true.
Proof.
  intros H. apply good_roots_are_good in H as [i [_ [G E]]].
  unfold good_root in G. apply andb_true_iff in G as [_ G]. congruence.
Qed.

(** When no candidate root passes the filter of the code, the phase
    selector raises the no-acceptable-roots exception, whose payload is
    the raw root list together with [T], [P], [a_alpha] and [b]; in
    particular it returns no state at all. *)
Theorem no_acceptable_root_raises
    (nm : Numerics) (s : EOS) (Vs : list num) (only_l only_g : bool) :
  (forall i, In i Vs -> numerically_real i && exceeds (b s) i = false) ->
  set_from_PT nm s Vs only_l only_g
    = Raise (NoAcceptableRoots Vs (T s) (P s) (a_alpha s) (b s))
  /\ forall s', set_from_PT nm s Vs only_l only_g <> Ok s'.
Proof.
  intros H. apply good_roots_nil in H.
  unfold set_from_PT. rewrite H. split; [reflexivity | discriminate].
Qed.

Lemma no_acceptable_root_raises_witness :
  let s := IG_object (Some 300) (Some 1e5) None in
  let Vs := [Float (-1); Complex 1 1; j1] in
  set_from_PT table_numerics s Vs false false
    = Raise (NoAcceptableRoots Vs (T s) (P s) (a_alpha s) (b s))
  /\ forall s', set_from_PT table_numerics s Vs false false <> Ok s'.
Proof.
  apply no_acceptable_root_raises.
  intros i [<-|[<-|[<-|[]]]]; reflexivity.
Defined.

(** C2: the claim fails on the code where [b] is negative.  With
    [b = -1e-5] and the root list [[-1, 1j, 1j]] no root is both
    numerically real ([|imag/real| < 1e-12]) and above [b]; the filter of
    the code nevertheless keeps the two placeholders as the roots [0.0],
    because their real part is exactly zero and exceeds [b].  With the
    default flags the selector then raises [ZeroDivisionError] while it
    evaluates the properties at [V = 0.0], and with [only_l] and [only_g]
    both set it returns the object tagged ["l/g"] without any phase
    record.  In neither case is the no-acceptable-roots exception
    raised. *)
Theorem placeholder_roots_are_accepted :
  (forall i, In i placeholder_list ->
     claimed_valid_root (b placeholder_state) i = false)
  /\ good_roots (b placeholder_state) placeholder_list = [0; 0]
  /\ set_from_PT table_numerics placeholder_state placeholder_list
       false false = Raise ZeroDivisionError
  /\ set_from_PT table_numerics placeholder_state placeholder_list
       true true = Ok placeholder_tagged
  /\ phase placeholder_tagged = Some PhaseLG
  /\ phase_records placeholder_tagged = 0%nat.
Proof.
  split; [|repeat split; reflexivity].
  intros i [<-|[<-|[<-|[]]]]; reflexivity.
Qed.

(** ** The ideal-gas short circuit of the root solver *)

(** C5: with [T > 0], [P > 0] and [a_alpha == 0.0] the root solver answers
    [[b + R*T/P, -1j, -1j]]: one real root and two placeholders with a
    non-zero imaginary part.  The answer is the same for every choice of the
    tiers [tr] and of the scalar solvers in [nm]: none of them is consulted. *)
Theorem ideal_gas_short_circuit
    (nm : Numerics) (tr : Tiers) (T P b delta epsilon a_alpha : float) :
  (0 <? T) = true -> (0 <? P) = true -> (a_alpha =? 0) = true ->
  volume_solutions_NR nm tr T P b delta epsilon a_alpha
    = Ok [Float (b + R nm * T / P); neg_j1; neg_j1]
  /\ (imag neg_j1 =? 0) = false.
Proof.
  intros _ HP Ha. split; [|reflexivity].
  unfold volume_solutions_NR. rewrite Ha.
  rewrite (div_nonzero _ (FloatOrder.ltb_neqb HP)). reflexivity.
Qed.

Lemma ideal_gas_short_circuit_witness :
  volume_solutions_NR table_numerics no_tiers 400 1e6 0 0 0 0
    = Ok [Float (0 + R table_numerics * 400 / 1e6); neg_j1; neg_j1]
  /\ (imag neg_j1 =? 0) = false.
Proof.
  apply ideal_gas_short_circuit; reflexivity.
Defined.

(** ** The property setter *)

Lemma properties_volume (nm : Numerics)
    (T P V b delta epsilon a da d2a : float) (r : PhaseRecord) :
  properties_from_solution nm T P V b delta epsilon a da d2a = Ok r ->
  V_ r = V
  /\ PIP r = V_ r * (d2P_dTdV r * dT_dP r - d2P_dV2 r * dV_dP r).
Proof.
  unfold properties_from_solution. intros H.
  apply bind_ok in H as [d [_ H]].
  apply bind_ok in H as [RT_inv [_ H]].
  apply bind_ok in H as [P_inv [_ H]].
  apply bind_ok in H as [V_inv [_ H]].
  injection H as <-. split; reflexivity.
Qed.

(** The tolerance literal of the source is the float [1 + 1e-14]. *)
Lemma tolerance_literal : 1.00000000000001 = 1 + 1e-14.
Proof. reflexivity. Qed.

(** C3: a root that is not forced to a phase gets the phase-identification
    parameter [PIP = V*(d2P_dTdV*dT_dP - d2P_dV2*dV_dP)], computed from the
    stored derivatives, and is stored as the liquid exactly when
    [PIP > 1 + 1e-14], as the gas otherwise. *)
Theorem pip_classification
    (nm : Numerics) (s : EOS)
    (T P V b delta epsilon a da d2a : float) (r : PhaseRecord) :
  properties_from_solution nm T P V b delta epsilon a da d2a = Ok r ->
  PIP r = V * (d2P_dTdV r * dT_dP r - d2P_dV2 r * dV_dP r)
  /\ set_properties_from_solution nm s T P V b delta epsilon a da d2a
       false false
     = Ok (if 1 + 1e-14 <? PIP r
           then (set_liquid s r, PhaseL) else (set_gas s r, PhaseG)).
Proof.
  intros H. destruct (properties_volume _ _ _ _ _ _ _ _ _ _ H) as [EV EP].
  split; [rewrite EP, EV; reflexivity|].
  unfold set_properties_from_solution. rewrite H. simpl.
  unfold stores_liquid. simpl. rewrite tolerance_literal.
  destruct (1 + 1e-14 <? PIP r); reflexivity.
Qed.

Lemma pip_classification_witness :
  properties_from_solution table_numerics 400 1e6
    0.003325785047261296 0 0 0 0 0 0 = Ok IG_example_gas
  /\ PIP IG_example_gas = 0.9999999999999999
  /\ set_properties_from_solution table_numerics IG_example 400 1e6
       0.003325785047261296 0 0 0 0 0 0 false false
     = Ok (set_gas IG_example IG_example_gas, PhaseG).
Proof.
  split; [reflexivity|]. split; [reflexivity|].
  exact (proj2 (@pip_classification table_numerics IG_example
                  400 1e6 0.003325785047261296 0 0 0 0 0 0
                  IG_example_gas eq_refl)).
Defined.

Lemma set_properties_ok (nm : Numerics) (s : EOS) (V0 t p : float)
    (force_l force_g : bool) (r : PhaseRecord) :
  T s = Some t -> P s = Some p ->
  properties_from_solution nm t p V0 (b s) (delta s) (epsilon s)
    (a_alpha s) (da_alpha_dT s) (d2a_alpha_dT2 s) = Ok r ->
  set_properties nm s V0 force_l force_g
    = Ok (if stores_liquid force_l force_g (PIP r)
          then (set_liquid s r, PhaseL) else (set_gas s r, PhaseG)).
Proof.
  intros HT HP H. unfold set_properties, set_properties_from_solution.
  rewrite HT, HP. simpl. rewrite H. simpl.
  destruct (stores_liquid force_l force_g (PIP r)); reflexivity.
Qed.

Lemma set_properties_inv (nm : Numerics) (s s' : EOS) (V0 : float)
    (force_l force_g : bool) (ph : Phase) :
  set_properties nm s V0 force_l force_g = Ok (s', ph) ->
  exists t p r,
    T s = Some t /\ P s = Some p
    /\ properties_from_solution nm t p V0 (b s) (delta s) (epsilon s)
         (a_alpha s) (da_alpha_dT s) (d2a_alpha_dT2 s) = Ok r
    /\ (s', ph) = if stores_liquid force_l force_g (PIP r)
                  then (set_liquid s r, PhaseL) else (set_gas s r, PhaseG).
Proof.
  unfold set_properties. intros H.
  apply bind_ok in H as [t [Ht H]]. apply bind_ok in H as [p [Hp H]].
  destruct (T s) as [t'|]; [|discriminate]. injection Ht as ->.
  destruct (P s) as [p'|]; [|discriminate]. injection Hp as ->.
  unfold set_properties_from_solution in H.
  apply bind_ok in H as [r [Hr H]].
  exists t, p, r. repeat split; try assumption.
  destruct (stores_liquid force_l force_g (PIP r)); congruence.
Qed.

(** ** The critical point *)

Lemma at_critical_point_true (s : EOS) (t p : float) :
  critical_state s t p -> at_critical_point s t p = Ok true.
Proof.
  unfold critical_state, at_critical_point. intros [HN H]. rewrite HN. simpl.
  destruct (multicomponent s).
  - destruct H as [tc [pc [tcs [pcs [-> [-> [-> ->]]]]]]]. reflexivity.
  - destruct H as [-> ->]. reflexivity.
Qed.

Lemma critical_point_run (nm : Numerics) (s : EOS) (Vs : list num)
    (only_l only_g : bool) (t p V0 : float) (r : PhaseRecord) :
  T s = Some t -> P s = Some p -> critical_state s t p ->
  good_roots (b s) Vs = [V0] ->
  properties_from_solution nm t p V0 (b s) (delta s) (epsilon s)
    (a_alpha s) (da_alpha_dT s) (d2a_alpha_dT2 s) = Ok r ->
  set_from_PT nm s Vs only_l only_g
    = Ok (set_phase (set_gas (set_liquid s r) r) PhaseLG)
  \/ set_from_PT nm s Vs only_l only_g
    = Ok (set_phase (set_liquid (set_gas s r) r) PhaseLG).
Proof.
  intros HT HP HC HG Hr. unfold set_from_PT. rewrite HG.
  rewrite (set_properties_ok nm s V0 false false HT HP Hr).
  change (stores_liquid false false (PIP r))
    with (1.00000000000001 <? PIP r).
  destruct (1.00000000000001 <? PIP r); cbn [Py.bind].
  - (* stored as the liquid first: the second call is forced to the gas *)
    left.
    change (T (set_phase (set_liquid s r) PhaseL)) with (T s).
    change (P (set_phase (set_liquid s r) PhaseL)) with (P s).
    rewrite HT, HP. cbn [the Py.bind].
    rewrite (at_critical_point_true
               (s := set_phase (set_liquid s r) PhaseL) HC).
    cbn [Py.bind phase_eqb negb].
    rewrite (set_properties_ok nm (set_phase (set_liquid s r) PhaseL) V0
               false true (t := t) (p := p) (r := r) HT HP Hr).
    reflexivity.
  - right.
    change (T (set_phase (set_gas s r) PhaseG)) with (T s).
    change (P (set_phase (set_gas s r) PhaseG)) with (P s).
    rewrite HT, HP. cbn [the Py.bind].
    rewrite (at_critical_point_true
               (s := set_phase (set_gas s r) PhaseG) HC).
    cbn [Py.bind phase_eqb negb].
    rewrite (set_properties_ok nm (set_phase (set_gas s r) PhaseG) V0
               true false (t := t) (p := p) (r := r) HT HP Hr).
    reflexivity.
Qed.

(** C4: a single-component object solved at exactly [T = Tc], [P = Pc] with
    one valid root holds the same record, computed from that root, as its
    liquid and as its gas (so [V_l] equals [V_g]), and its phase tag is
    ["l/g"].  The selector returns whenever the properties of the root
    evaluate, and every state it returns is of this form. *)
Theorem critical_point_both_phases
    (nm : Numerics) (s : EOS) (Vs : list num) (only_l only_g : bool)
    (t p V0 : float) :
  T s = Some t -> P s = Some p -> critical_state s t p ->
  good_roots (b s) Vs = [V0] ->
  (forall r,
     properties_from_solution nm t p V0 (b s) (delta s) (epsilon s)
       (a_alpha s) (da_alpha_dT s) (d2a_alpha_dT2 s) = Ok r ->
     exists s', set_from_PT nm s Vs only_l only_g = Ok s'
       /\ liquid s' = Some r /\ gas s' = Some r /\ V_ r = V0
       /\ phase s' = Some PhaseLG)
  /\ (forall s',
        set_from_PT nm s Vs only_l only_g = Ok s' ->
        exists r, liquid s' = Some r /\ gas s' = Some r /\ V_ r = V0
          /\ phase s' = Some PhaseLG).
Proof.
  intros HT HP HC HG.
  assert (A : forall r,
     properties_from_solution nm t p V0 (b s) (delta s) (epsilon s)
       (a_alpha s) (da_alpha_dT s) (d2a_alpha_dT2 s) = Ok r ->
     exists s', set_from_PT nm s Vs only_l only_g = Ok s'
       /\ liquid s' = Some r /\ gas s' = Some r /\ V_ r = V0
       /\ phase s' = Some PhaseLG).
  { intros r Hr.
    pose proof (proj1 (properties_volume _ _ _ _ _ _ _ _ _ _ Hr)) as EV.
    destruct (critical_point_run nm Vs only_l only_g HT HP HC HG Hr)
      as [E|E]; rewrite E; eexists; repeat split; assumption. }
  split; [exact A|].
  intros s' Hs. pose proof Hs as Hs0.
  unfold set_from_PT in Hs. rewrite HG in Hs.
  apply bind_ok in Hs as [[s1 ph] [H1 _]].
  apply set_properties_inv in H1 as [t' [p' [r [Ht' [Hp' [Hr _]]]]]].
  rewrite HT in Ht'. injection Ht' as <-.
  rewrite HP in Hp'. injection Hp' as <-.
  destruct (A r Hr) as [s'' [E R]]. rewrite E in Hs0. injection Hs0 as <-.
  exists r. exact R.
Qed.

Lemma critical_point_both_phases_witness :
  exists s',
    set_from_PT table_numerics IG_critical
      [Float IG_critical_root; neg_j1; neg_j1] false false = Ok s'
    /\ liquid s' = Some IG_critical_record
    /\ gas s' = Some IG_critical_record
    /\ V_ IG_critical_record = IG_critical_root
    /\ phase s' = Some PhaseLG.
Proof.
  refine (proj1 (@critical_point_both_phases table_numerics IG_critical
            [Float IG_critical_root; neg_j1; neg_j1] false false
            190.564 4599000 IG_critical_root
            eq_refl eq_refl (conj eq_refl (conj eq_refl eq_refl)) eq_refl)
          IG_critical_record eq_refl).
Defined.

(** ** Two or more valid roots *)

Lemma py_min_minimum (xs : list float) (x : float) :
  (forall y, In y (x :: xs) -> is_number y) ->
  is_minimum (py_min x xs) (x :: xs).
Proof.
  unfold py_min. revert x.
  induction xs as [|y xs IH]; intros x Hn.
  - split; [left; reflexivity|].
    intros z [<-|[]]. apply FloatOrder.leb_refl, Hn. left. reflexivity.
  - cbn [fold_left].
    assert (Hx : is_number x) by (apply Hn; left; reflexivity).
    assert (Hy : is_number y) by (apply Hn; right; left; reflexivity).
    destruct (y <? x) eqn:C.
    + destruct (IH y) as [I L].
      { intros z [<-|Hz]; [exact Hy | apply Hn; right; right; exact Hz]. }
      split.
      * destruct I as [<-|I]; [right; left; reflexivity | right; right; exact I].
      * intros z [<-|[<-|Hz]].
        -- apply FloatOrder.leb_trans with (y := y).
           ++ apply L. left. reflexivity.
           ++ apply FloatOrder.ltb_leb, C.
        -- apply L. left. reflexivity.
        -- apply L. right. exact Hz.
    + destruct (IH x) as [I L].
      { intros z [<-|Hz]; [exact Hx | apply Hn; right; right; exact Hz]. }
      split.
      * destruct I as [<-|I]; [left; reflexivity | right; right; exact I].
      * intros z [<-|[<-|Hz]].
        -- apply L. left. reflexivity.
        -- apply FloatOrder.leb_trans with (y := x).
           ++ apply L. left. reflexivity.
           ++ apply FloatOrder.nltb_leb; assumption.
        -- apply L. right. exact Hz.
Qed.

Lemma py_max_maximum (xs : list float) (x : float) :
  (forall y, In y (x :: xs) -> is_number y) ->
  is_maximum (py_max x xs) (x :: xs).
Proof.
  unfold py_max. revert x.
  induction xs as [|y xs IH]; intros x Hn.
  - split; [left; reflexivity|].
    intros z [<-|[]]. apply FloatOrder.leb_refl, Hn. left. reflexivity.
  - cbn [fold_left].
    assert (Hx : is_number x) by (apply Hn; left; reflexivity).
    assert (Hy : is_number y) by (apply Hn; right; left; reflexivity).
    destruct (x <? y) eqn:C.
    + destruct (IH y) as [I L].
      { intros z [<-|Hz]; [exact Hy | apply Hn; right; right; exact Hz]. }
      split.
      * destruct I as [<-|I]; [right; left; reflexivity | right; right; exact I].
      * intros z [<-|[<-|Hz]].
        -- apply FloatOrder.leb_trans with (y := y).
           ++ apply FloatOrder.ltb_leb, C.
           ++ apply L. left. reflexivity.
        -- apply L. left. reflexivity.
        -- apply L. right. exact Hz.
    + destruct (IH x) as [I L].
      { intros z [<-|Hz]; [exact Hx | apply Hn; right; right; exact Hz]. }
      split.
      * destruct I as [<-|I]; [left; reflexivity | right; right; exact I].
      * intros z [<-|[<-|Hz]].
        -- apply L. left. reflexivity.
        -- apply FloatOrder.leb_trans with (y := x).
           ++ apply FloatOrder.nltb_leb; assumption.
           ++ apply L. left. reflexivity.
        -- apply L. right. exact Hz.
Qed.

Lemma good_roots_numbers (b : float) (Vs : list num) (x : float) :
  In x (good_roots b Vs) -> is_number x.
Proof.
  intros H. apply good_roots_exceed in H.
  exact (proj2 (FloatOrder.ltb_is_number H)).
Qed.

Lemma forced_liquid (nm : Numerics) (s s' : EOS) (V0 : float) (ph : Phase) :
  set_properties nm s V0 true false = Ok (s', ph) ->
  exists r, s' = set_liquid s r /\ V_ r = V0.
Proof.
  intros H. apply set_properties_inv in H as [t [p [r [_ [_ [Hr E]]]]]].
  cbn in E. injection E as -> _. exists r. split; [reflexivity|].
  exact (proj1 (properties_volume _ _ _ _ _ _ _ _ _ _ Hr)).
Qed.

Lemma forced_gas (nm : Numerics) (s s' : EOS) (V0 : float) (ph : Phase) :
  set_properties nm s V0 false true = Ok (s', ph) ->
  exists r, s' = set_gas s r /\ V_ r = V0.
Proof.
  intros H. apply set_properties_inv in H as [t [p [r [_ [_ [Hr E]]]]]].
  cbn in E. injection E as -> _. exists r. split; [reflexivity|].
  exact (proj1 (properties_volume _ _ _ _ _ _ _ _ _ _ Hr)).
Qed.

(** C1, as the code has it: with two or more valid roots every state the
    selector returns carries the phase tag ["l/g"]; unless [only_g] was
    requested its liquid record is computed from the minimum valid root, and
    unless [only_l] was requested its gas record is computed from the maximum
    valid root.  A record that a flag rules out is left as it was. *)
Theorem two_roots_selection
    (nm : Numerics) (s s' : EOS) (Vs : list num) (only_l only_g : bool)
    (g g' : float) (gs : list float) :
  good_roots (b s) Vs = g :: g' :: gs ->
  set_from_PT nm s Vs only_l only_g = Ok s' ->
  two_root_outcome s s' only_l only_g (g :: g' :: gs).
Proof.
  intros HG H.
  assert (Hn : forall y, In y (g :: g' :: gs) -> is_number y).
  { intros y Hy. rewrite <- HG in Hy. exact (good_roots_numbers _ _ _ Hy). }
  pose proof (py_min_minimum Hn) as Hmin.
  pose proof (py_max_maximum Hn) as Hmax.
  unfold set_from_PT in H. rewrite HG in H.
  apply bind_ok in H as [s1 [H1 H]].
  apply bind_ok in H as [s2 [H2 H]].
  injection H as <-.
  unfold two_root_outcome. split; [reflexivity|].
  destruct only_g, only_l.
  - injection H1 as <-. injection H2 as <-. split; reflexivity.
  - injection H1 as <-.
    apply bind_ok in H2 as [[s3 ph] [H2 E]]. injection E as <-.
    apply forced_gas in H2 as [r [-> EV]].
    split; [reflexivity|]. exists r.
    split; [reflexivity | rewrite EV; exact Hmax].
  - injection H2 as <-.
    apply bind_ok in H1 as [[s3 ph] [H1 E]]. injection E as <-.
    apply forced_liquid in H1 as [r [-> EV]].
    split; [|reflexivity]. exists r.
    split; [reflexivity | rewrite EV; exact Hmin].
  - apply bind_ok in H1 as [[s3 ph] [H1 E]]. injection E as <-.
    apply forced_liquid in H1 as [rl [-> EVl]].
    apply bind_ok in H2 as [[s4 ph'] [H2 E]]. injection E as <-.
    apply forced_gas in H2 as [rg [-> EVg]].
    split.
    + exists rl. split; [reflexivity | rewrite EVl; exact Hmin].
    + exists rg. split; [reflexivity | rewrite EVg; exact Hmax].
Qed.

Lemma two_roots_selection_witness :
  two_root_outcome two_root_state two_root_solved false false [0.02; 0.03].
Proof.
  exact (@two_roots_selection table_numerics two_root_state two_root_solved
           two_root_list false false 0.02 0.03 [] eq_refl eq_refl).
Defined.

(** C1 as stated fails: called with [only_l], the selector finds the two
    valid roots [0.02] and [0.03], returns, and leaves the gas record
    unpopulated. *)
Lemma only_l_leaves_gas_unpopulated :
  good_roots (b two_root_state) two_root_list = [0.02; 0.03]
  /\ set_from_PT table_numerics two_root_state two_root_list true false
     = Ok two_root_only_l
  /\ gas two_root_only_l = None
  /\ phase two_root_only_l = Some PhaseLG.
Proof. repeat split; reflexivity. Qed.

(** ** Which exceptions the property setter can raise *)

Ltac split_raise H :=
  cbv beta zeta in H;
  repeat match type of H with
  | Py.bind _ _ = Raise _ =>
      apply bind_raise in H;
      let x := fresh "x" in let Hx := fresh "Hx" in
      destruct H as [H | [x [Hx H]]];
      [ | cbv beta zeta in H ]
  end.

Ltac leaf_raise H :=
  first
    [ apply div_raise in H; destruct H as [-> _]; left; reflexivity
    | apply domain_raise in H; subst; right; left; reflexivity
    | discriminate H ].

Lemma pow_raise (nm : Numerics) (x : float) (e : exn) :
  float_pow_neg_half nm x = Raise e ->
  e = ZeroDivisionError \/ e = ComplexPower.
Proof.
  unfold float_pow_neg_half.
  destruct (x =? 0); [intros H; left; congruence|].
  destruct ((x <? 0) && negb (x =? neg_infinity));
    [intros H; right; congruence | discriminate].
Qed.

Lemma guarded_inv_sqrt_raise (nm : Numerics) (x : float) (e : exn) :
  guarded_inv_sqrt nm x = Raise e -> e = ComplexPower.
Proof.
  unfold guarded_inv_sqrt, except_zero_division.
  destruct (float_pow_neg_half nm x) as [y|e'] eqn:E; [discriminate|].
  destruct (pow_raise _ _ E) as [-> | ->]; [discriminate | congruence].
Qed.

Lemma main_derivatives_raise (nm : Numerics)
    (T P V b delta epsilon a da d2a : float) (e : exn) :
  main_derivatives_and_departures nm T P V b delta epsilon a da d2a
    = Raise e ->
  arithmetic_exn e.
Proof.
  unfold main_derivatives_and_departures, arithmetic_exn. intros H.
  split_raise H; try leaf_raise H.
  apply guarded_inv_sqrt_raise in H. right; right; exact H.
Qed.

Lemma derivatives_raise (nm : Numerics)
    (T P V b delta epsilon a da d2a : float) (e : exn) :
  derivatives_and_departures nm T P V b delta epsilon a da d2a = Raise e ->
  arithmetic_exn e.
Proof.
  unfold derivatives_and_departures. intros H.
  split_raise H; try (unfold arithmetic_exn; leaf_raise H).
  - exact (main_derivatives_raise _ _ _ _ _ _ _ _ _ _ H).
  - unfold except_zero_division, Py.div in H.
    destruct (m_dP_dV x =? 0); discriminate H.
Qed.

Lemma properties_raise (nm : Numerics)
    (T P V b delta epsilon a da d2a : float) (e : exn) :
  properties_from_solution nm T P V b delta epsilon a da d2a = Raise e ->
  arithmetic_exn e.
Proof.
  unfold properties_from_solution. intros H.
  split_raise H; try (unfold arithmetic_exn; leaf_raise H).
  exact (derivatives_raise _ _ _ _ _ _ _ _ _ _ H).
Qed.

Lemma set_properties_raise (nm : Numerics) (s : EOS) (V0 : float)
    (force_l force_g : bool) (e : exn) :
  set_properties nm s V0 force_l force_g = Raise e -> selector_exn e.
Proof.
  unfold set_properties, set_properties_from_solution. intros H.
  split_raise H.
  - apply the_raise in H. right; left; exact H.
  - apply the_raise in H. right; left; exact H.
  - left. exact (properties_raise _ _ _ _ _ _ _ _ _ _ H).
  - destruct (stores_liquid force_l force_g (PIP x1)); discriminate H.
Qed.

Lemma at_critical_point_raise (s : EOS) (t p : float) (e : exn) :
  at_critical_point s t p = Raise e -> e = IndexError.
Proof.
  unfold at_critical_point.
  destruct (Nat.eqb (N s) 1); [|discriminate].
  destruct (multicomponent s); [|discriminate].
  destruct (Tcs s); [congruence|].
  destruct (_ =? t); [|discriminate].
  destruct (Pcs s); [congruence | discriminate].
Qed.

Lemma set_from_PT_raise (nm : Numerics) (s : EOS) (Vs : list num)
    (only_l only_g : bool) (e : exn) :
  set_from_PT nm s Vs only_l only_g = Raise e -> selector_exn e.
Proof.
  unfold set_from_PT.
  destruct (good_roots (b s) Vs) as [|g [|g' gs]]; intros H.
  - injection H as <-. right; right; right. eauto 6.
  - split_raise H.
    + exact (set_properties_raise _ _ _ _ _ H).
    + destruct x as [s1 ph]. split_raise H.
      * apply the_raise in H. right; left; exact H.
      * apply the_raise in H. right; left; exact H.
      * apply at_critical_point_raise in H. right; right; left; exact H.
      * destruct x1; [|discriminate H]. split_raise H.
        -- exact (set_properties_raise _ _ _ _ _ H).
        -- destruct x1. discriminate H.
  - split_raise H.
    + destruct only_g; [discriminate H|]. split_raise H.
      * exact (set_properties_raise _ _ _ _ _ H).
      * destruct x. discriminate H.
    + destruct only_l; [discriminate H|]. split_raise H.
      * exact (set_properties_raise _ _ _ _ _ H).
      * destruct x0. discriminate H.
    + discriminate H.
Qed.

Lemma selector_exn_not_pressure (e : exn) (q : float) :
  selector_exn e -> e <> NegativePressure q.
Proof.
  unfold selector_exn, arithmetic_exn. intros H E. subst e.
  repeat (destruct H as [H | H]); try discriminate H.
  destruct H as [Vs [T [P [a [b H]]]]]. discriminate H.
Qed.

(** ** The TV branch of [solve] *)

(** C6: in a solve specified by [(T, V)], once the alpha function has
    answered and the EOS relation has given the pressure [p], a pressure
    [p <= 0] makes the solve raise the negative-pressure [ValueError]
    carrying [p], with no state returned; a pressure [p > 0] never makes it
    raise that error. *)
Theorem negative_pressure_raises
    (nm : Numerics) (fam : Family) (s : EOS)
    (pure_a_alphas only_l only_g full_alphas : bool)
    (t v a da d2a p : float) :
  T s = Some t -> P s = None -> V s = Some v ->
  alpha_full fam t true pure_a_alphas = Ok (a, da, d2a) ->
  pressure_TV nm t v (b s) (delta s) (epsilon s) a = Ok p ->
  ((p <=? 0) = true ->
     solve nm fam s pure_a_alphas only_l only_g full_alphas
       = Raise (NegativePressure p))
  /\ ((0 <? p) = true ->
      forall q, solve nm fam s pure_a_alphas only_l only_g full_alphas
                  <> Raise (NegativePressure q)).
Proof.
  intros HT HP HV Ha Hp.
  assert (E : solve_candidates nm fam s pure_a_alphas only_l only_g
                full_alphas
              = if p <=? 0 then Raise (NegativePressure p)
                else Ok (set_P (set_alphas s a da d2a) p,
                         [Float v; j1; j1])).
  { unfold solve_candidates, check_sufficient_inputs.
    rewrite HT, HP, HV. cbn [Py.bind the]. rewrite Ha. cbn [Py.bind].
    change (b (set_alphas s a da d2a)) with (b s).
    change (delta (set_alphas s a da d2a)) with (delta s).
    change (epsilon (set_alphas s a da d2a)) with (epsilon s).
    change (a_alpha (set_alphas s a da d2a)) with a.
    rewrite Hp. reflexivity. }
  unfold solve. rewrite E. split; intros C.
  - rewrite C. reflexivity.
  - rewrite (FloatOrder.ltb_nleb C). cbn [Py.bind]. intros q H.
    apply set_from_PT_raise in H.
    exact (@selector_exn_not_pressure _ q H eq_refl).
Qed.

Lemma negative_pressure_raises_witness :
  (tv_negative_pressure <=? 0) = true
  /\ solve table_numerics (constant_alpha_family 100) tv_negative_state
       true false false true
     = Raise (NegativePressure tv_negative_pressure).
Proof.
  split; [reflexivity|].
  exact (proj1 (@negative_pressure_raises table_numerics
                  (constant_alpha_family 100) tv_negative_state
                  true false false true 1 1 100 0 0 tv_negative_pressure
                  eq_refl eq_refl eq_refl eq_refl eq_refl) eq_refl).
Defined.

(** ** The closing selection of the inverse solver *)

Lemma solve_T_pick_rule (solution : option Hint) (tb ts : float) :
  is_number tb -> is_number ts ->
  exists r, solve_T_pick solution (Some tb) (Some ts) = Some r
    /\ selection_rule solution tb ts r.
Proof.
  intros Hb Hs. unfold selection_rule.
  destruct solution as [[|]|]; cbn [solve_T_pick py_min py_max fold_left].
  - (* "l": min *)
    destruct (ts <? tb) eqn:C; eexists; (split; [reflexivity|]).
    + split; [right; reflexivity|].
      split; [apply FloatOrder.ltb_leb, C | apply FloatOrder.leb_refl, Hs].
    + split; [left; reflexivity|].
      split; [apply FloatOrder.leb_refl, Hb
             | apply FloatOrder.nltb_leb; assumption].
  - (* "g": max *)
    destruct (tb <? ts) eqn:C; eexists; (split; [reflexivity|]).
    + split; [right; reflexivity|].
      split; [apply FloatOrder.ltb_leb, C | apply FloatOrder.leb_refl, Hs].
    + split; [left; reflexivity|].
      split; [apply FloatOrder.leb_refl, Hb
             | apply FloatOrder.nltb_leb; assumption].
  - (* no hint: nearest to 298.15 *)
    destruct (abs (tb - 298.15) <? abs (ts - 298.15)) eqn:C;
      eexists; (split; [reflexivity|]).
    + split; [left; reflexivity|]. intros Db Ds.
      split; [apply FloatOrder.leb_refl, Db | apply FloatOrder.ltb_leb, C].
    + split; [right; reflexivity|]. intros Db Ds.
      split; [apply FloatOrder.nltb_leb; assumption
             | apply FloatOrder.leb_refl, Ds].
Qed.

(** C9: when the bracketing solve and the secant solve of [solve_T] both
    produced a temperature, the temperature returned is one of the two: the
    smaller one under the hint ["l"], the larger one under the hint ["g"],
    and without a hint the one whose distance to 298.15 is least. *)
Theorem solve_T_selection
    (nm : Numerics) (a_alpha_only : float -> result float) (s : EOS)
    (P V : float) (solution : option Hint) (tb ts : float) :
  solve_T_candidates nm a_alpha_only s P V solution
    = Ok (Some tb, Some ts) ->
  is_number tb -> is_number ts ->
  exists r,
    solve_T nm a_alpha_only s P V solution = Ok (set_no_T_spec s, Some r)
    /\ selection_rule solution tb ts r.
Proof.
  intros H Hb Hs. unfold solve_T. rewrite H. cbn [Py.bind].
  destruct (solve_T_pick_rule solution Hb Hs) as [r [E Rr]].
  exists r. rewrite E. split; [reflexivity | exact Rr].
Qed.

Lemma solve_T_selection_witness :
  (pv_secant <? pv_brenth) = true
  /\ exists r,
       solve_T midpoint_numerics (fun _ => Ok 0.1) pv_state 1e5 1e-3
         (Some HintL) = Ok (set_no_T_spec pv_state, Some r)
       /\ selection_rule (Some HintL) pv_brenth pv_secant r.
Proof.
  split; [reflexivity|].
  exact (@solve_T_selection midpoint_numerics (fun _ => Ok 0.1) pv_state
           1e5 1e-3 (Some HintL) pv_brenth pv_secant
           eq_refl eq_refl eq_refl).
Defined.

(** ** Solves in which the volume is given *)

Lemma GCEOS_family_marks_only (nm : Numerics) (tr : Tiers)
    (full : float -> bool -> bool -> result (float * float * float))
    (only : float -> bool -> bool -> result float) :
  marks_only (GCEOS_family nm tr full only).
Proof.
  intros s P V solution s1 T' H. cbn [GCEOS_family solve_T_method] in H.
  unfold solve_T in H. apply bind_ok in H as [[tb ts] [_ H]].
  injection H as <- _. reflexivity.
Qed.

Lemma IG_family_marks_only (nm : Numerics) : marks_only (IG_family nm).
Proof.
  intros s P V solution s1 T' H. cbn [IG_family solve_T_method] in H.
  injection H as <- _. reflexivity.
Qed.

Lemma solve_candidates_volume (nm : Numerics) (fam : Family) (s s1 : EOS)
    (pure_a_alphas only_l only_g full_alphas : bool) (v : float)
    (Vs : list num) :
  marks_only fam -> V s = Some v ->
  solve_candidates nm fam s pure_a_alphas only_l only_g full_alphas
    = Ok (s1, Vs) ->
  Vs = [Float v; j1; j1]
  /\ b s1 = b s /\ liquid s1 = liquid s /\ gas s1 = gas s.
Proof.
  intros Hm HV H. unfold solve_candidates in H.
  apply bind_ok in H as [u [_ H]]. rewrite HV in H.
  destruct (P s) as [p|].
  - apply bind_ok in H as [[s0 T'] [H0 H]].
    apply Hm in H0. subst s0.
    apply bind_ok in H as [t [_ H]].
    apply bind_ok in H as [[[a da] d2a] [_ H]].
    injection H as <- <-. repeat split; reflexivity.
  - apply bind_ok in H as [t [_ H]].
    apply bind_ok in H as [[[a da] d2a] [_ H]].
    apply bind_ok in H as [p [_ H]].
    destruct (p <=? 0); [discriminate H|].
    injection H as <- <-. repeat split; reflexivity.
Qed.

Lemma good_roots_volume (b v : float) :
  (b <? 0) = false ->
  good_roots b [Float v; j1; j1]
    = if good_root b (Float v) then [v] else [].
Proof.
  intros Hb. unfold good_roots. cbn [filter].
  assert (E : good_root b j1 = false).
  { unfold good_root. cbn [real j1]. rewrite Hb. apply andb_false_r. }
  rewrite E. destruct (good_root b (Float v)); reflexivity.
Qed.

Lemma at_critical_point_inv (s : EOS) (t p : float) :
  at_critical_point s t p = Ok true -> critical_state s t p.
Proof.
  unfold at_critical_point, critical_state.
  destruct (Nat.eqb (N s) 1) eqn:EN; [|discriminate].
  apply Nat.eqb_eq in EN. intros H. split; [exact EN|].
  destruct (multicomponent s).
  - destruct (Tcs s) as [|tc tcs]; [discriminate|].
    destruct (tc =? t) eqn:Et; [|discriminate].
    destruct (Pcs s) as [|pc pcs]; [discriminate|].
    injection H as Ep. exists tc, pc, tcs, pcs. repeat split; assumption.
  - injection H as H. apply andb_true_iff in H. exact H.
Qed.

(** The outcome of the single-root branch of the selector on an object
    that holds no phase record. *)
Lemma single_root_outcome (nm : Numerics) (s s' : EOS) (Vs : list num)
    (only_l only_g : bool) (V0 t p : float) :
  good_roots (b s) Vs = [V0] -> liquid s = None -> gas s = None ->
  set_from_PT nm s Vs only_l only_g = Ok s' ->
  T s' = Some t -> P s' = Some p -> ~ critical_state s' t p ->
  phase_records s' = 1%nat
  /\ (phase s' = Some PhaseL \/ phase s' = Some PhaseG).
Proof.
  intros HG Hl Hg H HT HP HC. unfold set_from_PT in H. rewrite HG in H.
  apply bind_ok in H as [[s1 ph] [H1 H]].
  apply set_properties_inv in H1 as [t1 [p1 [r [Ht1 [Hp1 [_ E]]]]]].
  apply bind_ok in H as [t2 [Ht2 H]].
  apply bind_ok in H as [p2 [Hp2 H]].
  apply bind_ok in H as [crit [Hc H]].
  destruct crit.
  - exfalso. apply HC.
    apply bind_ok in H as [[s3 ph3] [H3 H]]. injection H as <-.
    apply set_properties_inv in H3 as [t3 [p3 [r3 [_ [_ [_ E3]]]]]].
    apply at_critical_point_inv in Hc.
    destruct (stores_liquid _ _ (PIP r)); injection E as -> ->;
      destruct (stores_liquid _ _ (PIP r3)); injection E3 as -> _;
      cbn in HT, HP, Ht2, Hp2;
      rewrite HT in Ht2; rewrite HP in Hp2;
      injection Ht2 as <-; injection Hp2 as <-;
      exact Hc.
  - injection H as <-.
    destruct (stores_liquid _ _ (PIP r)); injection E as -> ->;
      unfold phase_records; cbn; rewrite ?Hl, ?Hg; split; auto.
Qed.

(** When [V] is given and [b] is not negative,
    the list handed to the phase selector is exactly [[V, 1j, 1j]], the
    family's [volume_solutions] plays no part in the result, and a solve
    that returns away from the critical point has populated exactly one
    phase record and carries the tag ["l"] or ["g"]. *)
Theorem volume_specified_solve
    (nm : Numerics) (fam : Family) (s : EOS)
    (pure_a_alphas only_l only_g full_alphas : bool) (v : float) :
  marks_only fam -> V s = Some v ->
  liquid s = None -> gas s = None -> (b s <? 0) = false ->
  (forall s1 Vs,
     solve_candidates nm fam s pure_a_alphas only_l only_g full_alphas
       = Ok (s1, Vs) ->
     Vs = [Float v; j1; j1])
  /\ (forall vs,
        solve nm (with_volume_solutions fam vs) s pure_a_alphas only_l
          only_g full_alphas
        = solve nm fam s pure_a_alphas only_l only_g full_alphas)
  /\ (forall s' t p,
        solve nm fam s pure_a_alphas only_l only_g full_alphas = Ok s' ->
        T s' = Some t -> P s' = Some p -> ~ critical_state s' t p ->
        phase_records s' = 1%nat
        /\ (phase s' = Some PhaseL \/ phase s' = Some PhaseG)).
Proof.
  intros Hm HV Hl Hg Hb. split; [|split].
  - intros s1 Vs H.
    exact (proj1 (@solve_candidates_volume _ _ _ _ _ _ _ _ _ _ Hm HV H)).
  - intros vs. unfold solve, solve_candidates. rewrite HV. reflexivity.
  - intros s' t p H HT HP HC. unfold solve in H.
    apply bind_ok in H as [[s1 Vs] [H1 H]].
    destruct (@solve_candidates_volume _ _ _ _ _ _ _ _ _ _ Hm HV H1)
      as [-> [Eb [El Eg]]].
    assert (HG := @good_roots_volume (b s1) v).
    rewrite Eb in HG. specialize (HG Hb). rewrite <- Eb in HG.
    destruct (good_root (b s1) (Float v)).
    + refine (@single_root_outcome _ _ _ _ _ _ _ _ _ HG _ _ H HT HP HC); congruence.
    + unfold set_from_PT in H. rewrite HG in H. discriminate H.
Qed.

Lemma volume_specified_solve_witness :
  solve table_numerics (IG_family table_numerics) tv_state
    true false false true = Ok tv_solved
  /\ phase_records tv_solved = 1%nat
  /\ (phase tv_solved = Some PhaseL \/ phase tv_solved = Some PhaseG).
Proof.
  split; [reflexivity|].
  refine (proj2 (proj2 (@volume_specified_solve table_numerics
            (IG_family table_numerics) tv_state true false false true
            0.003325785047261296
            (@IG_family_marks_only table_numerics)
            eq_refl eq_refl eq_refl eq_refl))
          tv_solved 400 tv_pressure eq_refl eq_refl eq_refl _).
  intros [_ [C _]]. discriminate C.
Defined.

(** C10: the claim fails on the code where [b] is negative.  With the
    covolume [b = -1e-5] the placeholders [1j], whose real part is
    [0.0 > b], pass the root filter beside the given volume; solved with
    [only_g], the object gets its gas record alone, and the tag ["l/g"],
    away from the critical point. *)
Lemma negative_b_volume_solve_is_two_phase :
  solve table_numerics (constant_alpha_family 0.1) negative_b_state
    true false true true = Ok negative_b_solved
  /\ good_roots (b negative_b_state) [Float 0.02; j1; j1] = [0.02; 0; 0]
  /\ phase negative_b_solved = Some PhaseLG
  /\ phase_records negative_b_solved = 1%nat
  /\ (Tc negative_b_solved =? 300) = false.
Proof. repeat split; reflexivity. Qed.

(** The same volume-specified solve with the default flags: the liquid
    record is attempted at the placeholder's volume [0.0], and the
    property evaluation divides by zero. *)
Lemma negative_b_volume_solve_default_flags :
  solve table_numerics (constant_alpha_family 0.1) negative_b_state
    true false false true = Raise ZeroDivisionError.
Proof. reflexivity. Qed.

(** ** A vanishing [delta*delta - 4*epsilon] *)







(** ** Solving again at a stored volume *)






(** ** The doctest of class [IG]

    [IG(T=400., P=1E6)] documents [V_g = 0.003325785047261296],
    [phase = 'g'], [beta_g = 0.0024999999999999996], [kappa_g = 1e-06],
    [Cp_dep_g = -1.7763568394002505e-15], [fugacity_g = 1000000.0],
    [PIP_g = 0.9999999999999999], [Z_g = 1.0] and [dP_dT_g = 2500.0]; the
    embedding computes the same floats. *)
Example IG_doctest :
  exists s,
    solve table_numerics (IG_family table_numerics) IG_example
      true false false true = Ok s
    /\ phase s = Some PhaseG /\ liquid s = None
    /\ gas s = Some IG_example_gas
    /\ V_ IG_example_gas = 0.003325785047261296
    /\ beta IG_example_gas = 0.0024999999999999996
    /\ kappa IG_example_gas = 1e-06
    /\ Cp_dep IG_example_gas = -1.7763568394002505e-15
    /\ fugacity IG_example_gas = 1000000
    /\ PIP IG_example_gas = 0.9999999999999999
    /\ Z_ IG_example_gas = 1
    /\ dP_dT IG_example_gas = 2500.
Proof.
  eexists. split; [vm_compute; reflexivity|]. repeat split; reflexivity.
Qed.

(** ** The inverse solver always answers with a temperature *)

Lemma first_bracket_keeps (nm : Numerics) (f : float -> result float)
    (tol : float) (bounds : list (float * float)) (x : option float) :
  x <> None -> first_bracket nm f tol bounds x <> None.
Proof.
  intros Hx. induction bounds as [|[lo hi] rest IH]; cbn [first_bracket].
  - exact Hx.
  - destruct (brenth nm f lo hi tol None); [discriminate | exact IH].
Qed.

Lemma solve_T_candidates_nonempty (nm : Numerics)
    (a_alpha_only : float -> result float) (s : EOS) (P0 V0 : float)
    (solution : option Hint) (tb ts : option float) :
  solve_T_candidates nm a_alpha_only s P0 V0 solution = Ok (tb, ts) ->
  tb <> None \/ ts <> None.
Proof.
  unfold solve_T_candidates. intros H.
  apply bind_ok in H as [dinv [_ H]]. apply bind_ok in H as [vinv [_ H]].
  cbv zeta in H.
  apply bind_ok in H as [err_ig [_ H]]. apply bind_ok in H as [err_liq [_ H]].
  apply bind_ok in H as [[tb0 ts0] [H0 H]].
  assert (K : tb0 <> None \/ ts0 <> None).
  { match type of H0 with
    | match ?c with _ => _ end = _ => destruct c
    end.
    - injection H0 as _ <-. right. discriminate.
    - match type of H0 with
      | match ?c with _ => _ end = _ => destruct c
      end.
      + injection H0 as _ <-. right. discriminate.
      + match type of H0 with
        | match ?c with _ => _ end = _ => destruct c eqn:E
        end.
        * injection H0 as <- _. left. discriminate.
        * apply bind_ok in H0 as [t [_ H0]]. injection H0 as <- _.
          left. discriminate. }
  destruct solution as [h|].
  - injection H as <- <-. destruct K as [K|K].
    + left. destruct (match tb0 with
                      | Some tb1 => match ts0 with
                                    | Some ts1 => isclose nm tb1 ts1 1e-7
                                    | None => false end
                      | None => true end).
      * apply first_bracket_keeps, K.
      * exact K.
    + right. destruct ts0; [discriminate | congruence].
  - injection H as <- <-. exact K.
Qed.

(** X1: whenever [solve_T] returns, what it returns is a temperature: the
    answer [None] is never produced, because one of the two candidates is
    always present when the final selection is reached. *)
Theorem solve_T_returns_a_temperature
    (nm : Numerics) (a_alpha_only : float -> result float) (s s' : EOS)
    (P0 V0 : float) (solution : option Hint) (r : option float) :
  solve_T nm a_alpha_only s P0 V0 solution = Ok (s', r) ->
  exists t, r = Some t.
Proof.
  unfold solve_T. intros H.
  apply bind_ok in H as [[tb ts] [Hc H]]. injection H as _ <-.
  apply solve_T_candidates_nonempty in Hc.
  destruct tb as [b0|], ts as [s0|];
    [ | | | destruct Hc; congruence ];
    destruct solution as [[|]|];
    cbn [solve_T_pick py_min py_max fold_left];
    repeat match goal with
           | |- context [if ?c then _ else _] => destruct c
           end; eauto.
Qed.

Lemma solve_T_returns_a_temperature_witness :
  exists t, Some pv_secant = Some t.
Proof.
  exact (@solve_T_returns_a_temperature midpoint_numerics
           (fun _ => Ok 0.1) pv_state (set_no_T_spec pv_state) 1e5 1e-3
           (Some HintL) (Some pv_secant) eq_refl).
Defined.

(** X2: when no scalar solver converges (every [secant] call and every
    [brenth] call raises), [solve_T] raises; it never returns one of its
    starting guesses. *)
Theorem solve_T_raises_without_solvers
    (nm : Numerics) (a_alpha_only : float -> result float) (s : EOS)
    (P0 V0 : float) (solution : option Hint) :
  (forall f x0 low xtol same_tol f0,
     Py.is_ok (secant nm f x0 low xtol same_tol f0) = false) ->
  (forall f lo hi xtol fab, Py.is_ok (brenth nm f lo hi xtol fab) = false) ->
  Py.is_ok (solve_T nm a_alpha_only s P0 V0 solution) = false.
Proof.
  intros Hs Hb.
  destruct (solve_T nm a_alpha_only s P0 V0 solution) as [[s' r]|e] eqn:E;
    [|reflexivity].
  exfalso. unfold solve_T in E.
  apply bind_ok in E as [[tb ts] [H _]].
  unfold solve_T_candidates in H.
  apply bind_ok in H as [dinv [_ H]]. apply bind_ok in H as [vinv [_ H]].
  cbv zeta in H.
  apply bind_ok in H as [err_ig [_ H]]. apply bind_ok in H as [err_liq [_ H]].
  apply bind_ok in H as [[tb0 ts0] [H0 _]].
  match type of H0 with
  | match ?c with _ => _ end = _ =>
      pose proof (Hs _ _ _ _ _ _ : Py.is_ok c = false) as S1; destruct c
  end; [discriminate S1|].
  match type of H0 with
  | match ?c with _ => _ end = _ =>
      pose proof (Hs _ _ _ _ _ _ : Py.is_ok c = false) as S2; destruct c
  end; [discriminate S2|].
  match type of H0 with
  | match ?c with _ => _ end = _ => destruct c eqn:A
  end.
  - match type of A with
    | (if ?g then attempt ?c else None) = Some _ =>
        pose proof (Hb _ _ _ _ _ : Py.is_ok c = false) as B;
        destruct g; [destruct c; [discriminate B | discriminate A]
                    | discriminate A]
    end.
  - apply bind_ok in H0 as [t [B _]].
    match type of B with
    | ?c = Ok _ => pose proof (Hb _ _ _ _ _ : Py.is_ok c = false) as B'
    end.
    rewrite B in B'. discriminate B'.
Qed.

Lemma solve_T_raises_without_solvers_witness :
  Py.is_ok (solve_T table_numerics (fun _ => Ok 0.1) pv_state 1e5 1e-3 None)
  = false.
Proof.
  apply solve_T_raises_without_solvers; reflexivity.
Defined.

(** ** What the phase selector returns *)

Lemma set_from_PT_result (nm : Numerics) (s s' : EOS) (Vs : list num)
    (only_l only_g : bool) :
  set_from_PT nm s Vs only_l only_g = Ok s' ->
  selector_result s s' (good_roots (b s) Vs) only_l only_g.
Proof.
  unfold set_from_PT, selector_result.
  destruct (good_roots (b s) Vs) as [|g [|g' gs]]; intros H.
  - discriminate H.
  - apply bind_ok in H as [[s1 ph] [H1 H]].
    apply set_properties_inv in H1 as [t [p [r [Ht [Hp [Hr E]]]]]].
    pose proof (proj1 (properties_volume _ _ _ _ _ _ _ _ _ _ Hr)) as EV.
    exists r. split; [exact EV|].
    apply bind_ok in H as [t2 [_ H]]. apply bind_ok in H as [p2 [_ H]].
    apply bind_ok in H as [crit [_ H]].
    destruct crit.
    + apply bind_ok in H as [[s3 ph3] [H3 H]]. injection H as <-.
      apply set_properties_inv in H3 as [t3 [p3 [r3 [Ht3 [Hp3 [Hr3 E3]]]]]].
      destruct (stores_liquid false false (PIP r)); injection E as -> ->;
        cbn in Ht3, Hp3, Hr3, E3;
        rewrite Ht in Ht3; injection Ht3 as <-;
        rewrite Hp in Hp3; injection Hp3 as <-;
        rewrite Hr in Hr3; injection Hr3 as <-;
        injection E3 as -> _; auto.
    + injection H as <-.
      destruct (stores_liquid false false (PIP r)); injection E as -> ->;
        auto.
  - apply bind_ok in H as [s1 [H1 H]]. apply bind_ok in H as [s2 [H2 H]].
    injection H as <-. exists s1, s2. split; [|split; [|reflexivity]].
    + destruct only_g; [injection H1 as <-; reflexivity|].
      apply bind_ok in H1 as [[s3 ph] [H1 E]]. injection E as <-.
      apply forced_liquid in H1 as [r [-> EV]]. exists r. auto.
    + destruct only_l; [injection H2 as <-; reflexivity|].
      apply bind_ok in H2 as [[s3 ph] [H2 E]]. injection E as <-.
      apply forced_gas in H2 as [r [-> EV]]. exists r. auto.
Qed.

Ltac selector_cases H :=
  apply set_from_PT_result in H; unfold selector_result in H;
  match type of H with
  | match ?l with _ => _ end =>
      let g := fresh "g" in let g' := fresh "g'" in let gs := fresh "gs" in
      let E := fresh "Eroots" in
      destruct l as [|g [|g' gs]] eqn:E; [contradiction | | ]
  end.

Lemma selector_result_frame (s s' : EOS) (roots : list float)
    (only_l only_g : bool) :
  selector_result s s' roots only_l only_g -> same_frame s s'.
Proof.
  unfold selector_result. intros H.
  destruct roots as [|g [|g' gs]]; [contradiction | | ].
  - destruct H as [r [_ [ -> | [ -> | [ -> | -> ] ] ]]];
      unfold same_frame; cbn; repeat split; reflexivity.
  - destruct H as [s1 [s2 [H1 [H2 ->]]]].
    assert (F1 : same_frame s s1).
    { destruct only_g; [subst; unfold same_frame; repeat split; reflexivity|].
      destruct H1 as [r [_ ->]].
      unfold same_frame; cbn; repeat split; reflexivity. }
    assert (F2 : same_frame s1 s2).
    { destruct only_l; [subst; unfold same_frame; repeat split; reflexivity|].
      destruct H2 as [r [_ ->]].
      unfold same_frame; cbn; repeat split; reflexivity. }
    unfold same_frame in *. cbn.
    repeat match goal with H : _ /\ _ |- _ => destruct H end.
    repeat split; congruence.
Qed.

Lemma selector_result_volumes (s s' : EOS) (roots : list float)
    (only_l only_g : bool) (r : PhaseRecord) :
  liquid s = None -> gas s = None ->
  (forall y, In y roots -> is_number y) ->
  selector_result s s' roots only_l only_g ->
  liquid s' = Some r \/ gas s' = Some r ->
  In (V_ r) roots.
Proof.
  unfold selector_result. intros Hl Hg Hn H Hr.
  destruct roots as [|g [|g' gs]]; [contradiction | | ].
  - destruct H as [r0 [EV [ -> | [ -> | [ -> | -> ] ] ]]]; cbn in Hr;
      rewrite ?Hl, ?Hg in Hr;
      destruct Hr as [Hr|Hr]; try discriminate Hr;
      injection Hr as <-; left; exact (eq_sym EV).
  - destruct H as [s1 [s2 [H1 [H2 ->]]]]. cbn in Hr.
    pose proof (proj1 (py_min_minimum Hn)) as Imin.
    pose proof (proj1 (py_max_maximum Hn)) as Imax.
    destruct only_g, only_l; subst.
    + rewrite Hl, Hg in Hr. destruct Hr; discriminate.
    + destruct H2 as [r2 [E2 ->]]. cbn in Hr. rewrite Hl in Hr.
      destruct Hr as [Hr|Hr]; [discriminate Hr|].
      injection Hr as <-. rewrite E2. exact Imax.
    + destruct H1 as [r1 [E1 ->]]. cbn in Hr. rewrite Hg in Hr.
      destruct Hr as [Hr|Hr]; [|discriminate Hr].
      injection Hr as <-. rewrite E1. exact Imin.
    + destruct H1 as [r1 [E1 ->]], H2 as [r2 [E2 ->]]. cbn in Hr.
      destruct Hr as [Hr|Hr]; injection Hr as <-;
        [rewrite E1; exact Imin | rewrite E2; exact Imax].
Qed.

Lemma selector_result_populates (s s' : EOS) (roots : list float)
    (only_l only_g : bool) :
  selector_result s s' roots only_l only_g ->
  only_l && only_g = false ->
  (1 <= phase_records s')%nat.
Proof.
  unfold selector_result, phase_records. intros H Hf.
  destruct roots as [|g [|g' gs]]; [contradiction | | ].
  - destruct H as [r [_ [ -> | [ -> | [ -> | -> ] ] ]]]; cbn;
      repeat match goal with |- context [match ?o with _ => _ end] =>
        destruct o end; lia.
  - destruct H as [s1 [s2 [H1 [H2 ->]]]]. cbn.
    destruct only_g, only_l; try discriminate Hf; subst.
    + destruct H2 as [r2 [_ ->]]. cbn. destruct (liquid s); lia.
    + destruct H1 as [r1 [_ ->]]. cbn. lia.
    + destruct H1 as [r1 [_ ->]], H2 as [r2 [_ ->]]. cbn. lia.
Qed.

(** X3: the selector touches nothing but the two phase records and the
    phase tag: the state variables, the critical constants, the
    coefficients, the alpha values, the raw roots and the [no_T_spec] mark
    of the returned object are those of the object it was given. *)
Theorem selector_keeps_the_frame
    (nm : Numerics) (s s' : EOS) (Vs : list num) (only_l only_g : bool) :
  set_from_PT nm s Vs only_l only_g = Ok s' -> same_frame s s'.
Proof.
  intros H. apply set_from_PT_result in H.
  eapply selector_result_frame; eassumption.
Qed.

Lemma selector_keeps_the_frame_witness :
  same_frame two_root_state two_root_solved.
Proof.
  exact (@selector_keeps_the_frame table_numerics two_root_state
           two_root_solved two_root_list false false eq_refl).
Defined.

(** X4: every state the selector returns carries a phase tag, and a tag
    ["l"] comes with a liquid record, a tag ["g"] with a gas record. *)
Theorem phase_tag_has_its_record
    (nm : Numerics) (s s' : EOS) (Vs : list num) (only_l only_g : bool) :
  set_from_PT nm s Vs only_l only_g = Ok s' ->
  match phase s' with
  | Some PhaseL => liquid s' <> None
  | Some PhaseG => gas s' <> None
  | Some PhaseLG => True
  | None => False
  end.
Proof.
  intros H. selector_cases H.
  - destruct H as [r [_ [ -> | [ -> | [ -> | -> ] ] ]]]; cbn; try discriminate; exact I.
  - destruct H as [s1 [s2 [_ [_ ->]]]]. exact I.
Qed.

Lemma phase_tag_has_its_record_witness :
  phase tv_solved = Some PhaseG /\ gas tv_solved <> None.
Proof.
  split; [reflexivity|].
  exact (@phase_tag_has_its_record table_numerics
           (set_P (set_alphas tv_state 0 0 0) tv_pressure) tv_solved
           [Float 0.003325785047261296; j1; j1] false false eq_refl).
Defined.

(** X5: on an object that holds no phase record, every record the selector
    stores is computed from one of the valid roots; its volume therefore
    exceeds [b]. *)
Theorem stored_volumes_are_valid_roots
    (nm : Numerics) (s s' : EOS) (Vs : list num) (only_l only_g : bool)
    (r : PhaseRecord) :
  liquid s = None -> gas s = None ->
  set_from_PT nm s Vs only_l only_g = Ok s' ->
  liquid s' = Some r \/ gas s' = Some r ->
  In (V_ r) (good_roots (b s) Vs) /\ (b s <? V_ r) = true.
Proof.
  intros Hl Hg H Hr.
  assert (Hn : forall y, In y (good_roots (b s) Vs) -> is_number y)
    by (intros y Hy; exact (good_roots_numbers _ _ _ Hy)).
  apply set_from_PT_result in H.
  assert (K : In (V_ r) (good_roots (b s) Vs))
    by (eapply selector_result_volumes; eassumption).
  split; [exact K | exact (good_roots_exceed _ _ _ K)].
Qed.

Lemma stored_volumes_are_valid_roots_witness :
  In (V_ two_root_liquid) (good_roots (b two_root_state) two_root_list)
  /\ (b two_root_state <? V_ two_root_liquid) = true.
Proof.
  exact (@stored_volumes_are_valid_roots table_numerics two_root_state
           two_root_solved two_root_list false false two_root_liquid
           eq_refl eq_refl eq_refl (or_introl eq_refl)).
Defined.

(** X6: on an object that holds no phase record, a returned state with
    both records has its liquid volume below or equal to its gas volume. *)
Theorem liquid_volume_not_above_gas_volume
    (nm : Numerics) (s s' : EOS) (Vs : list num) (only_l only_g : bool)
    (rl rg : PhaseRecord) :
  liquid s = None -> gas s = None ->
  set_from_PT nm s Vs only_l only_g = Ok s' ->
  liquid s' = Some rl -> gas s' = Some rg ->
  (V_ rl <=? V_ rg) = true.
Proof.
  intros Hl Hg H Rl Rg.
  assert (Hn : forall y, In y (good_roots (b s) Vs) -> is_number y)
    by (intros y Hy; exact (good_roots_numbers _ _ _ Hy)).
  selector_cases H.
  - destruct H as [r0 [EV [ -> | [ -> | [ -> | -> ] ] ]]]; cbn in Rl, Rg;
      rewrite ?Hl, ?Hg in *; try discriminate;
      injection Rl as <-; injection Rg as <-;
      apply FloatOrder.leb_refl, Hn; left; exact (eq_sym EV).
  - destruct H as [s1 [s2 [H1 [H2 ->]]]]. cbn in Rl, Rg.
    destruct (py_min_minimum Hn) as [_ Lmin].
    destruct (py_max_maximum Hn) as [Imax _].
    destruct only_g, only_l; subst.
    + rewrite Hl in Rl. discriminate Rl.
    + destruct H2 as [r2 [E2 ->]]. cbn in Rl. rewrite Hl in Rl.
      discriminate Rl.
    + destruct H1 as [r1 [E1 ->]]. cbn in Rg. rewrite Hg in Rg.
      discriminate Rg.
    + destruct H1 as [r1 [E1 ->]], H2 as [r2 [E2 ->]]. cbn in Rl, Rg.
      injection Rl as <-. injection Rg as <-. rewrite E1, E2.
      apply Lmin, Imax.
Qed.

Lemma liquid_volume_not_above_gas_volume_witness :
  (V_ two_root_liquid <=? V_ two_root_gas) = true.
Proof.
  exact (@liquid_volume_not_above_gas_volume table_numerics two_root_state
           two_root_solved two_root_list false false
           two_root_liquid two_root_gas
           eq_refl eq_refl eq_refl eq_refl eq_refl).
Defined.

(** ** The low-pressure volume solver *)

Lemma low_P_root_shape (nm : Numerics)
    (T0 P0 b0 delta0 epsilon0 a : float) (i : nat)
    (P_inv Vi rel_err : float) (z : num) (e : float) :
  low_P_root nm T0 P0 b0 delta0 epsilon0 a i P_inv Vi rel_err = Ok (z, e) ->
  float_or_placeholder z.
Proof.
  unfold low_P_root. intros H.
  apply bind_ok in H as [[V1 e1] [_ H]]. cbv beta iota zeta in H.
  injection H as <- _.
  destruct (Nat.eqb i 0 && (1e-8 <? e1)); [right; reflexivity|].
  destruct ((Nat.eqb i 1 && (1.5 * b0 <? V1)) || (V1 <? b0));
    [|left; eauto].
  destruct (low_P_bracket nm T0 P0 b0 delta0 epsilon0 a 1);
    [left; eauto | right; reflexivity].
Qed.

Lemma low_P_newton_raise (nm : Numerics)
    (T0 P0 b0 delta0 epsilon0 a : float) (fuel : nat)
    (P_inv damping Vi V0 err rel_err : float) (e : exn) :
  low_P_newton nm T0 P0 b0 delta0 epsilon0 a fuel P_inv damping Vi V0 err
    rel_err = Raise e ->
  e = ZeroDivisionError.
Proof.
  revert V0 err rel_err.
  induction fuel as [|fuel IH]; intros V0 err rel_err H; [discriminate H|].
  cbn [low_P_newton] in H.
  apply bind_raise in H as [H | [d1 [_ H]]];
    [exact (proj1 (div_raise _ _ H))|].
  apply bind_raise in H as [H | [d0 [_ H]]];
    [exact (proj1 (div_raise _ _ H))|].
  cbv beta zeta in H.
  repeat match type of H with
  | (if ?c then _ else _) = _ => destruct c; [discriminate H|]
  end.
  exact (IH _ _ _ H).
Qed.

Lemma low_P_root_raise (nm : Numerics)
    (T0 P0 b0 delta0 epsilon0 a : float) (i : nat)
    (P_inv Vi rel_err : float) (e : exn) :
  low_P_root nm T0 P0 b0 delta0 epsilon0 a i P_inv Vi rel_err = Raise e ->
  e = ZeroDivisionError.
Proof.
  unfold low_P_root. intros H.
  apply bind_raise in H as [H | [[V1 e1] [_ H]]];
    [exact (low_P_newton_raise _ _ _ _ _ _ _ _ _ _ _ _ _ _ H)|].
  discriminate H.
Qed.

(** X7: whenever the low-pressure solver returns, it returns exactly three
    entries: the two iterated roots, each a float or the placeholder [1j],
    followed by the placeholder [1j]. *)
Theorem low_P_returns_three_entries
    (nm : Numerics) (T0 P0 b0 delta0 epsilon0 a : float) (Vs : list num) :
  volume_solutions_NR_low_P nm T0 P0 b0 delta0 epsilon0 a = Ok Vs ->
  exists r0 r1,
    Vs = [r0; r1; j1]
    /\ float_or_placeholder r0 /\ float_or_placeholder r1.
Proof.
  unfold volume_solutions_NR_low_P. intros H.
  apply bind_ok in H as [P_inv [_ H]].
  apply bind_ok in H as [V0 [_ H]]. cbv beta zeta in H.
  apply bind_ok in H as [[r0 e0] [H0 H]]. cbv beta iota in H.
  apply bind_ok in H as [[r1 e1] [H1 H]]. cbv beta iota in H.
  injection H as <-. exists r0, r1.
  split; [reflexivity|].
  split; eapply low_P_root_shape; eassumption.
Qed.

Lemma low_P_returns_three_entries_witness :
  exists r0 r1,
    low_pressure_raw = [r0; r1; j1]
    /\ float_or_placeholder r0 /\ float_or_placeholder r1.
Proof.
  exact (@low_P_returns_three_entries table_numerics 300 1e-4
           (b low_pressure_state) (delta low_pressure_state)
           (epsilon low_pressure_state) 3.8 low_pressure_raw eq_refl).
Defined.

(** X8: the only exception that leaves the low-pressure solver is
    [ZeroDivisionError], from one of its own divisions; a failure of the
    bracketing solver is absorbed into the placeholder [1j]. *)
Theorem low_P_raises_only_zero_division
    (nm : Numerics) (T0 P0 b0 delta0 epsilon0 a : float) (e : exn) :
  volume_solutions_NR_low_P nm T0 P0 b0 delta0 epsilon0 a = Raise e ->
  e = ZeroDivisionError.
Proof.
  unfold volume_solutions_NR_low_P. intros H.
  apply bind_raise in H as [H | [P_inv [_ H]]];
    [exact (proj1 (div_raise _ _ H))|].
  apply bind_raise in H as [H | [V0 [_ H]]];
    [exact (proj1 (div_raise _ _ H))|].
  cbv beta zeta in H.
  apply bind_raise in H as [H | [[r0 e0] [_ H]]];
    [exact (low_P_root_raise _ _ _ _ _ _ _ _ _ _ _ H)|].
  cbv beta iota in H.
  apply bind_raise in H as [H | [[r1 e1] [_ H]]];
    [exact (low_P_root_raise _ _ _ _ _ _ _ _ _ _ _ H)|].
  discriminate H.
Qed.

Lemma low_P_raises_only_zero_division_witness :
  volume_solutions_NR_low_P table_numerics 300 0 (b low_pressure_state)
    (delta low_pressure_state) (epsilon low_pressure_state) 3.8
    = Raise ZeroDivisionError
  /\ ZeroDivisionError = ZeroDivisionError.
Proof.
  split; [reflexivity|].
  exact (@low_P_raises_only_zero_division table_numerics 300 0
           (b low_pressure_state) (delta low_pressure_state)
           (epsilon low_pressure_state) 3.8 ZeroDivisionError eq_refl).
Defined.

(** ** [solve] and [resolve_full_alphas] *)

Lemma solve_inv (nm : Numerics) (fam : Family) (s s' : EOS)
    (pure_a_alphas only_l only_g full_alphas : bool) :
  solve nm fam s pure_a_alphas only_l only_g full_alphas = Ok s' ->
  exists s1 Vs,
    solve_candidates nm fam s pure_a_alphas only_l only_g full_alphas
      = Ok (s1, Vs)
    /\ set_from_PT nm s1 Vs only_l only_g = Ok s'.
Proof.
  unfold solve. intros H. apply bind_ok in H as [[s1 Vs] [H1 H]].
  eauto.
Qed.

Lemma solve_candidates_TP (nm : Numerics) (fam : Family) (s s1 : EOS)
    (pure_a_alphas only_l only_g full_alphas : bool) (Vs : list num) :
  V s = None ->
  solve_candidates nm fam s pure_a_alphas only_l only_g full_alphas
    = Ok (s1, Vs) ->
  exists t p,
    T s = Some t /\ P s = Some p
    /\ volume_solutions fam t p (b s) (delta s) (epsilon s) (a_alpha s1)
       = Ok Vs
    /\ raw_volumes s1 = Some Vs
    /\ b s1 = b s /\ liquid s1 = liquid s /\ gas s1 = gas s.
Proof.
  intros HV H. unfold solve_candidates in H.
  apply bind_ok in H as [u [_ H]]. rewrite HV in H.
  apply bind_ok in H as [t [Ht H]]. apply bind_ok in H as [p [Hp H]].
  exists t, p.
  assert (Et : T s = Some t) by (destruct (T s); [injection Ht as ->; reflexivity | discriminate Ht]).
  assert (Ep : P s = Some p) by (destruct (P s); [injection Hp as ->; reflexivity | discriminate Hp]).
  apply bind_ok in H as [s2 [H2 H]].
  apply bind_ok in H as [Vs0 [HVs H]]. injection H as <- <-.
  assert (K : b s2 = b s /\ delta s2 = delta s /\ epsilon s2 = epsilon s
              /\ liquid s2 = liquid s /\ gas s2 = gas s).
  { destruct full_alphas.
    - apply bind_ok in H2 as [[[a da] d2a] [_ H2]]. injection H2 as <-.
      repeat split; reflexivity.
    - apply bind_ok in H2 as [a [_ H2]]. injection H2 as <-.
      repeat split; reflexivity. }
  destruct K as [Kb [Kd [Ke [Kl Kg]]]].
  rewrite Kb, Kd, Ke in HVs. cbn.
  repeat split; assumption.
Qed.

Lemma solve_candidates_raw (nm : Numerics) (fam : Family) (s s1 : EOS)
    (pure_a_alphas only_l only_g full_alphas : bool) (v : float)
    (Vs : list num) :
  marks_only fam -> V s = Some v ->
  solve_candidates nm fam s pure_a_alphas only_l only_g full_alphas
    = Ok (s1, Vs) ->
  raw_volumes s1 = raw_volumes s.
Proof.
  intros Hm HV H. unfold solve_candidates in H.
  apply bind_ok in H as [u [_ H]]. rewrite HV in H.
  destruct (P s) as [p|].
  - apply bind_ok in H as [[s0 T'] [H0 H]].
    apply Hm in H0. subst s0.
    apply bind_ok in H as [t [_ H]].
    apply bind_ok in H as [[[a da] d2a] [_ H]].
    injection H as <- _. reflexivity.
  - apply bind_ok in H as [t [_ H]].
    apply bind_ok in H as [[[a da] d2a] [_ H]].
    apply bind_ok in H as [p [_ H]].
    destruct (p <=? 0); [discriminate H|].
    injection H as <- _. reflexivity.
Qed.

Lemma solve_T_ignores_T (nm : Numerics)
    (a_alpha_only : float -> result float) (s : EOS) (t : option float)
    (P0 V0 : float) (solution : option Hint) :
  solve_T nm a_alpha_only (set_T s t) P0 V0 solution
  = (' (s1, r) <- solve_T nm a_alpha_only s P0 V0 solution ;;
     Ok (set_T s1 t, r)).
Proof.
  unfold solve_T.
  change (solve_T_candidates nm a_alpha_only (set_T s t) P0 V0 solution)
    with (solve_T_candidates nm a_alpha_only s P0 V0 solution).
  destruct (solve_T_candidates nm a_alpha_only s P0 V0 solution)
    as [[tb ts]|e]; reflexivity.
Qed.

(** X9: unless both [only_l] and [only_g] are set, an object [solve]
    returns holds at least one phase record. *)
Theorem solve_populates_a_phase
    (nm : Numerics) (fam : Family) (s s' : EOS)
    (pure_a_alphas only_l only_g full_alphas : bool) :
  solve nm fam s pure_a_alphas only_l only_g full_alphas = Ok s' ->
  only_l && only_g = false ->
  (1 <= phase_records s')%nat.
Proof.
  intros H Hf. apply solve_inv in H as [s1 [Vs [_ H]]].
  apply set_from_PT_result in H.
  eapply selector_result_populates; eassumption.
Qed.

Lemma solve_populates_a_phase_witness : (1 <= phase_records tv_solved)%nat.
Proof.
  exact (@solve_populates_a_phase table_numerics
           (IG_family table_numerics) tv_state tv_solved
           true false false true eq_refl eq_refl).
Defined.

(** X10: when pressure and volume are both given, [solve] of a family
    that keeps [GCEOS.solve_T] does not read the temperature of the
    object: whatever [T] held is overwritten by the solved temperature. *)
Theorem pressure_volume_solve_ignores_T
    (nm : Numerics) (tr : Tiers)
    (full : float -> bool -> bool -> result (float * float * float))
    (only : float -> bool -> bool -> result float)
    (s : EOS) (t : option float) (p v : float)
    (pure_a_alphas only_l only_g full_alphas : bool) :
  P s = Some p -> V s = Some v ->
  solve nm (GCEOS_family nm tr full only) (set_T s t)
    pure_a_alphas only_l only_g full_alphas
  = solve nm (GCEOS_family nm tr full only) s
      pure_a_alphas only_l only_g full_alphas.
Proof.
  intros HP HV. unfold solve. f_equal.
  unfold solve_candidates, check_sufficient_inputs.
  change (P (set_T s t)) with (P s). change (V (set_T s t)) with (V s).
  rewrite HP, HV.
  replace (match T (set_T s t) with Some _ | _ => Ok tt end)
    with (Ok tt : result unit) by (destruct (T (set_T s t)); reflexivity).
  replace (match T s with Some _ | _ => Ok tt end)
    with (Ok tt : result unit) by (destruct (T s); reflexivity).
  cbn [Py.bind GCEOS_family solve_T_method].
  rewrite solve_T_ignores_T.
  destruct (solve_T nm (fun T0 => only T0 false true) s p v
              (hint_of only_l only_g)) as [[s1 r]|e]; reflexivity.
Qed.

Lemma pressure_volume_solve_ignores_T_witness :
  solve midpoint_numerics
    (GCEOS_family midpoint_numerics no_tiers
       (fun _ _ _ => Ok (0.1, 0, 0)) (fun _ _ _ => Ok 0.1))
    (set_T pv_state (Some 77)) true false false true
  = solve midpoint_numerics
      (GCEOS_family midpoint_numerics no_tiers
         (fun _ _ _ => Ok (0.1, 0, 0)) (fun _ _ _ => Ok 0.1))
      pv_state true false false true.
Proof.
  exact (@pressure_volume_solve_ignores_T midpoint_numerics no_tiers
           (fun _ _ _ => Ok (0.1, 0, 0)) (fun _ _ _ => Ok 0.1)
           pv_state (Some 77) 1e5 1e-3 true false false true
           eq_refl eq_refl).
Defined.

(** X11: a temperature-pressure [solve] of an object without phase
    records stores the list its family's [volume_solutions] answered as
    [raw_volumes], and the volume of every phase record it sets is one of
    the valid roots of that list. *)
Theorem temperature_pressure_solve_stores_roots
    (nm : Numerics) (fam : Family) (s s' : EOS)
    (pure_a_alphas only_l only_g full_alphas : bool) :
  V s = None -> liquid s = None -> gas s = None ->
  solve nm fam s pure_a_alphas only_l only_g full_alphas = Ok s' ->
  exists t p Vs,
    T s = Some t /\ P s = Some p
    /\ volume_solutions fam t p (b s) (delta s) (epsilon s) (a_alpha s')
       = Ok Vs
    /\ raw_volumes s' = Some Vs
    /\ forall r, liquid s' = Some r \/ gas s' = Some r ->
         In (V_ r) (good_roots (b s') Vs).
Proof.
  intros HV Hl Hg H. apply solve_inv in H as [s1 [Vs [H1 H]]].
  apply (solve_candidates_TP _ _ _ _ _ _ _ HV) in H1
    as [t [p [Et [Ep [HVs [Hraw [Hb [Hl1 Hg1]]]]]]]].
  apply set_from_PT_result in H.
  pose proof (@selector_result_frame _ _ _ _ _ H) as F.
  unfold same_frame in F.
  destruct F as [_ [_ [_ [_ [_ [_ [_ [_ [_ [Fb [_ [_ [Fa [_ [_ [Fr _]]]]]]]]]]]]]]]].
  exists t, p, Vs. rewrite Fa, Fr, Fb.
  repeat split; try assumption.
  intros r Hr.
  eapply selector_result_volumes; [| | | exact H | exact Hr];
    [congruence | congruence |].
  intros y Hy. exact (good_roots_numbers _ _ _ Hy).
Qed.

Lemma temperature_pressure_solve_stores_roots_witness :
  exists t p Vs,
    T low_pressure_state = Some t /\ P low_pressure_state = Some p
    /\ volume_solutions (constant_alpha_family 3.8) t p
         (b low_pressure_state) (delta low_pressure_state)
         (epsilon low_pressure_state) (a_alpha low_pressure_solved) = Ok Vs
    /\ raw_volumes low_pressure_solved = Some Vs
    /\ forall r,
         liquid low_pressure_solved = Some r
         \/ gas low_pressure_solved = Some r ->
         In (V_ r) (good_roots (b low_pressure_solved) Vs).
Proof.
  exact (@temperature_pressure_solve_stores_roots table_numerics
           (constant_alpha_family 3.8) low_pressure_state
           low_pressure_solved true false false true
           eq_refl eq_refl eq_refl eq_refl).
Defined.

(** X12: [resolve_full_alphas] cannot complete on an object that was
    solved from a volume specification (TV or PV): such a solve never
    stores [raw_volumes], the attribute the method reads. *)
Theorem resolve_full_alphas_needs_raw_volumes
    (nm : Numerics) (fam : Family) (s s' : EOS) (v : float)
    (pure_a_alphas only_l only_g full_alphas : bool) :
  marks_only fam ->
  V s = Some v -> raw_volumes s = None ->
  solve nm fam s pure_a_alphas only_l only_g full_alphas = Ok s' ->
  Py.is_ok (resolve_full_alphas nm fam s') = false.
Proof.
  intros Hm HV Hraw H. apply solve_inv in H as [s1 [Vs [H1 H]]].
  assert (R1 : raw_volumes s1 = raw_volumes s)
    by (eapply solve_candidates_raw; eassumption).
  apply set_from_PT_result in H.
  pose proof (@selector_result_frame _ _ _ _ _ H) as F.
  unfold same_frame in F.
  destruct F as [_ [_ [_ [_ [_ [_ [_ [_ [_ [_ [_ [_ [_ [_ [_ [Fr _]]]]]]]]]]]]]]]].
  unfold resolve_full_alphas.
  destruct (the (T s')) as [t|e]; [|reflexivity]. cbn [Py.bind].
  destruct (alpha_full fam t true false) as [[[a da] d2a]|e]; [|reflexivity].
  cbn [Py.bind].
  change (raw_volumes (set_alphas s' a da d2a)) with (raw_volumes s').
  rewrite Fr, R1, Hraw. reflexivity.
Qed.

Lemma resolve_full_alphas_needs_raw_volumes_witness :
  Py.is_ok (resolve_full_alphas table_numerics (IG_family table_numerics)
              tv_solved) = false.
Proof.
  exact (@resolve_full_alphas_needs_raw_volumes table_numerics
           (IG_family table_numerics) tv_state tv_solved
           0.003325785047261296 true false false true
           (@IG_family_marks_only table_numerics) eq_refl eq_refl eq_refl).
Defined.

(** X13: on an object that holds both phase records and whose stored raw
    roots contain two or more valid ones, [resolve_full_alphas] replaces
    the alpha values and recomputes no property: both records come back
    as they were. *)
Theorem resolve_full_alphas_keeps_two_phase_records
    (nm : Numerics) (fam : Family) (s s' : EOS) (rl rg : PhaseRecord)
    (Vs : list num) :
  liquid s = Some rl -> gas s = Some rg ->
  raw_volumes s = Some Vs ->
  Nat.leb 2 (length (good_roots (b s) Vs)) = true ->
  resolve_full_alphas nm fam s = Ok s' ->
  liquid s' = Some rl /\ gas s' = Some rg
  /\ exists t da d2a,
       T s = Some t
       /\ alpha_full fam t true false = Ok (a_alpha s', da, d2a).
Proof.
  intros Hl Hg Hraw Hn H. unfold resolve_full_alphas in H.
  apply bind_ok in H as [t [Ht H]].
  apply bind_ok in H as [[[a da] d2a] [Ha H]]. cbv beta iota zeta in H.
  change (raw_volumes (set_alphas s a da d2a)) with (raw_volumes s) in H.
  change (liquid (set_alphas s a da d2a)) with (liquid s) in H.
  change (gas (set_alphas s a da d2a)) with (gas s) in H.
  rewrite Hraw, Hl, Hg in H.
  unfold set_from_PT in H.
  change (b (set_alphas s a da d2a)) with (b s) in H.
  destruct (good_roots (b s) Vs) as [|g [|g' gs]];
    [discriminate Hn | discriminate Hn |].
  cbn [Py.bind] in H. injection H as <-. cbn.
  repeat split; try assumption.
  exists t, da, d2a. split; [|exact Ha].
  destruct (T s); [injection Ht as ->; reflexivity | discriminate Ht].
Qed.

Lemma resolve_full_alphas_keeps_two_phase_records_witness :
  exists s',
    resolve_full_alphas table_numerics (constant_alpha_family 4)
      low_pressure_solved = Ok s'
    /\ a_alpha s' = 4
    /\ liquid s' = Some low_pressure_liquid
    /\ gas s' = Some low_pressure_gas.
Proof.
  eexists. split; [reflexivity|]. split; [reflexivity|].
  destruct (@resolve_full_alphas_keeps_two_phase_records table_numerics
              (constant_alpha_family 4) low_pressure_solved _
              low_pressure_liquid low_pressure_gas low_pressure_raw
              eq_refl eq_refl eq_refl eq_refl eq_refl) as [Hl [Hg _]].
  split; [exact Hl | exact Hg].
Defined.

(** ** Derivatives at degenerate states *)

Lemma times_infinity_nonzero (x : float) :
  (x =? 0) = false -> ((- x) * infinity =? 0) = false.
Proof.
  rewrite !FloatAxioms.eqb_spec, FloatAxioms.mul_spec, FloatAxioms.opp_spec.
  change (Prim2SF infinity) with (S754_infinity false).
  change (Prim2SF 0) with (S754_zero false).
  destruct (Prim2SF x) as [[|]|[|]| |[|] m e]; intros H;
    try discriminate H; reflexivity.
Qed.

(** X14: a state whose [dP_dT] is exactly zero cannot be given
    properties: once the main derivatives are computed,
    [derivatives_and_departures] raises [ZeroDivisionError] on
    [1./dP_dT], whatever [dP_dV] is. *)
Theorem zero_dP_dT_raises
    (nm : Numerics) (T0 P0 V0 b0 delta0 epsilon0 a da d2a : float)
    (m : MainDerivs) :
  main_derivatives_and_departures nm T0 P0 V0 b0 delta0 epsilon0 a da d2a
    = Ok m ->
  (m_dP_dT m =? 0) = true ->
  derivatives_and_departures nm T0 P0 V0 b0 delta0 epsilon0 a da d2a
    = Raise ZeroDivisionError.
Proof.
  intros Hm Hz. unfold derivatives_and_departures. rewrite Hm.
  cbn [Py.bind]. cbv zeta.
  unfold Py.div at 1.
  destruct (m_dP_dV m =? 0); cbn [except_zero_division Py.bind];
    unfold Py.div; rewrite Hz; reflexivity.
Qed.

Lemma zero_dP_dT_raises_witness :
  derivatives_and_departures table_numerics 300 1e5 1 0 0 0
    0.1 8.31446261815324 0 = Raise ZeroDivisionError.
Proof.
  exact (@zero_dP_dT_raises table_numerics 300 1e5 1 0 0 0
           0.1 8.31446261815324 0 isochoric_flat_main eq_refl eq_refl).
Defined.

(** X15: a state on the spinodal, where [dP_dV] is exactly zero while
    [dP_dT] is not, raises nothing in [derivatives_and_departures]: the
    inverse of [dP_dV] is replaced by [inf], the expansion [dV_dT] is
    [-dP_dT*inf], and its inverse is taken without a zero divisor. *)
Theorem zero_dP_dV_does_not_raise
    (nm : Numerics) (T0 P0 V0 b0 delta0 epsilon0 a da d2a : float)
    (m : MainDerivs) :
  main_derivatives_and_departures nm T0 P0 V0 b0 delta0 epsilon0 a da d2a
    = Ok m ->
  (m_dP_dV m =? 0) = true ->
  (m_dP_dT m =? 0) = false ->
  exists d,
    derivatives_and_departures nm T0 P0 V0 b0 delta0 epsilon0 a da d2a
      = Ok d
    /\ v_dV_dT d = (- m_dP_dT m) * infinity
    /\ v_dT_dV d = 1 / ((- m_dP_dT m) * infinity).
Proof.
  intros Hm Hz Hn. unfold derivatives_and_departures. rewrite Hm.
  cbn [Py.bind]. cbv zeta.
  unfold Py.div at 1. rewrite Hz. cbn [except_zero_division Py.bind].
  rewrite (div_nonzero 1 Hn). cbn [Py.bind].
  rewrite (div_nonzero 1 (times_infinity_nonzero Hn)). cbn [Py.bind].
  eexists. split; [reflexivity|]. split; reflexivity.
Qed.

Lemma zero_dP_dV_does_not_raise_witness :
  exists d,
    derivatives_and_departures table_numerics 2 1e5 1 0 0 0
      8.31446261815324 0 0 = Ok d
    /\ v_dV_dT d = (- m_dP_dT spinodal_main) * infinity
    /\ v_dT_dV d = 1 / ((- m_dP_dT spinodal_main) * infinity).
Proof.
  exact (@zero_dP_dV_does_not_raise table_numerics 2 1e5 1 0 0 0
           8.31446261815324 0 0 spinodal_main eq_refl eq_refl eq_refl).
Defined.

(** ** [more_stable_phase], [state_specs] and [to] *)

(** X16: for a class that reads [G_dep_g] as an instance attribute (every
    class but [IG], which overrides it), on an object that holds a phase
    record [more_stable_phase] names a phase whose record exists, and no
    record of the object has a smaller Gibbs departure, as far as the
    departures compared are numbers; when the two departures compare
    equal, the answer is the gas. *)
Theorem more_stable_phase_minimises (s : EOS) (r : PhaseRecord) :
  liquid s = Some r \/ gas s = Some r ->
  (exists r0,
     match more_stable_phase InstanceAttributes s with
     | PhaseL => liquid s = Some r0
     | PhaseG => gas s = Some r0
     | PhaseLG => False
     end
     /\ (is_number (G_dep r0) -> is_number (G_dep r) ->
         (G_dep r0 <=? G_dep r) = true))
  /\ (forall l g,
        liquid s = Some l -> gas s = Some g ->
        (G_dep l =? G_dep g) = true ->
        more_stable_phase InstanceAttributes s = PhaseG).
Proof.
  unfold more_stable_phase, read_G_dep_l, read_G_dep_g. intros Hr.
  destruct (liquid s) as [l|], (gas s) as [g|]; cbn [option_map].
  - split.
    + destruct (G_dep l <? G_dep g) eqn:E.
      * exists l. split; [reflexivity|]. intros N0 N1.
        destruct Hr as [Hr|Hr]; injection Hr as <-;
          [apply FloatOrder.leb_refl; exact N0
          | apply FloatOrder.ltb_leb; exact E].
      * exists g. split; [reflexivity|]. intros N0 N1.
        destruct Hr as [Hr|Hr]; injection Hr as <-;
          [apply FloatOrder.nltb_leb; assumption
          | apply FloatOrder.leb_refl; exact N0].
    + intros l0 g0 El Eg Heq. injection El as <-. injection Eg as <-.
      destruct (G_dep l <? G_dep g) eqn:E; [|reflexivity].
      apply FloatOrder.ltb_neqb in E.
      rewrite FloatOrder.eqb_cmp in Heq, E.
      rewrite (FloatOrder.SFcompare_antisym (Prim2SF (G_dep l))
                 (Prim2SF (G_dep g))) in E.
      destruct (SFcompare (Prim2SF (G_dep l)) (Prim2SF (G_dep g)))
        as [[| |]|]; simpl in *; congruence.
  - split; [|intros l0 g0 _ Eg; discriminate Eg].
    exists l. split; [reflexivity|]. intros N0 _.
    destruct Hr as [Hr|Hr]; [|discriminate Hr].
    injection Hr as <-. apply FloatOrder.leb_refl; exact N0.
  - split; [|intros l0 g0 El; discriminate El].
    exists g. split; [reflexivity|]. intros N0 _.
    destruct Hr as [Hr|Hr]; [discriminate Hr|].
    injection Hr as <-. apply FloatOrder.leb_refl; exact N0.
  - destruct Hr; discriminate.
Qed.

Lemma more_stable_phase_minimises_witness :
  (G_dep tie_liquid =? G_dep tie_gas) = true
  /\ more_stable_phase InstanceAttributes tie_solved = PhaseG
  /\ exists r0,
       gas tie_solved = Some r0
       /\ (is_number (G_dep r0) -> is_number (G_dep tie_liquid) ->
           (G_dep r0 <=? G_dep tie_liquid) = true).
Proof.
  split; [reflexivity|].
  destruct (@more_stable_phase_minimises tie_solved tie_liquid
              (or_introl eq_refl)) as [A B].
  split; [exact (B tie_liquid tie_gas eq_refl eq_refl eq_refl) | exact A].
Defined.

(** X17: the specifications an object reports round-trip through [to]:
    called with the dictionary of [state_specs] as keyword arguments,
    [to] returns the object itself and solves nothing, provided the
    reported values are present and are numbers. *)
Theorem to_state_specs_returns_self
    (nm : Numerics) (fam : Family) (s : EOS) :
  forallb (fun kv => given_number (snd kv)) (state_specs s) = true ->
  to_keywords nm fam s (state_specs s) = Ok s.
Proof.
  unfold to_keywords, state_specs, given_number.
  destruct (no_T_spec s).
  - cbn [forallb snd keyword String.eqb Ascii.eqb Bool.eqb].
    destruct (P s) as [p|] eqn:EP; [|discriminate].
    destruct (V s) as [v|] eqn:EV;
      [|rewrite andb_false_r; discriminate].
    rewrite andb_true_r. intros H.
    apply andb_prop in H as [Hp Hv].
    unfold to, to_PV, differs. rewrite EP, EV, Hp, Hv. reflexivity.
  - destruct (V s) as [v|] eqn:EV.
    + cbn [forallb snd keyword String.eqb Ascii.eqb Bool.eqb].
      destruct (T s) as [t|] eqn:ET; [|discriminate].
      rewrite andb_true_r. intros H.
      apply andb_prop in H as [Ht Hv].
      unfold to, to_TV, differs. rewrite ET, EV, Ht, Hv. reflexivity.
    + cbn [forallb snd keyword String.eqb Ascii.eqb Bool.eqb].
      destruct (T s) as [t|] eqn:ET; [|discriminate].
      destruct (P s) as [p|] eqn:EP;
        [|rewrite andb_false_r; discriminate].
      rewrite andb_true_r. intros H.
      apply andb_prop in H as [Ht Hp].
      unfold to, to_TP, differs. rewrite ET, EP, Ht, Hp. reflexivity.
Qed.

Lemma to_state_specs_returns_self_witness :
  to_keywords table_numerics (constant_alpha_family 3.8)
    low_pressure_solved (state_specs low_pressure_solved)
  = Ok low_pressure_solved.
Proof.
  exact (@to_state_specs_returns_self table_numerics
           (constant_alpha_family 3.8) low_pressure_solved eq_refl).
Defined.

(** ** What a constructed object reports *)

Lemma solve_candidates_specs (nm : Numerics) (fam : Family) (s s1 : EOS)
    (pure_a_alphas only_l only_g full_alphas : bool) (Vs : list num) :
  marks_only fam -> no_T_spec s = false ->
  solve_candidates nm fam s pure_a_alphas only_l only_g full_alphas
    = Ok (s1, Vs) ->
  state_specs s1
  = match V s, P s with
    | Some _, Some _ => [("P"%string, P s); ("V"%string, V s)]
    | Some _, None => [("T"%string, T s); ("V"%string, V s)]
    | None, _ => [("T"%string, T s); ("P"%string, P s)]
    end.
Proof.
  intros Hm Hn H. unfold solve_candidates in H.
  apply bind_ok in H as [u [_ H]].
  destruct (V s) as [v|] eqn:EV.
  - destruct (P s) as [p|] eqn:EP.
    + apply bind_ok in H as [[s0 T'] [H0 H]].
      apply Hm in H0. subst s0.
      apply bind_ok in H as [t [_ H]].
      apply bind_ok in H as [[[a da] d2a] [_ H]].
      injection H as <- _. unfold state_specs. cbn.
      rewrite EP, EV. reflexivity.
    + apply bind_ok in H as [t [_ H]].
      apply bind_ok in H as [[[a da] d2a] [_ H]].
      apply bind_ok in H as [p [_ H]].
      destruct (p <=? 0); [discriminate H|].
      injection H as <- _. unfold state_specs. cbn.
      rewrite Hn, EV. reflexivity.
  - apply bind_ok in H as [t [_ H]]. apply bind_ok in H as [p [_ H]].
    apply bind_ok in H as [s2 [H2 H]].
    apply bind_ok in H as [Vs0 [_ H]]. injection H as <- _.
    assert (K : T s2 = T s /\ P s2 = P s /\ V s2 = V s
                /\ no_T_spec s2 = no_T_spec s).
    { destruct full_alphas.
      - apply bind_ok in H2 as [[[a da] d2a] [_ H2]]. injection H2 as <-.
        repeat split; reflexivity.
      - apply bind_ok in H2 as [a [_ H2]]. injection H2 as <-.
        repeat split; reflexivity. }
    destruct K as [KT [KP [KV KN]]].
    unfold state_specs. cbn. rewrite KN, KV, KT, KP, Hn, EV. reflexivity.
Qed.

Lemma same_frame_specs (s s' : EOS) :
  same_frame s s' -> state_specs s' = state_specs s.
Proof.
  unfold same_frame, state_specs.
  intros [FT [FP [FV [_ [_ [_ [_ [_ [_ [_ [_ [_ [_ [_ [_ [_ FN]]]]]]]]]]]]]]]].
  rewrite FT, FP, FV, FN. reflexivity.
Qed.

(** X19: an object built by a family constructor reports as its
    [state_specs] exactly the two values it was built from: pressure and
    volume when both were given (the solved temperature is not a
    specification, and a temperature passed beside them is dropped),
    else temperature and volume, else temperature and pressure. *)
Theorem constructed_object_reports_its_specs
    (nm : Numerics) (fam : Family) (s s' : EOS) (T' P' V' : option float) :
  marks_only fam ->
  construct nm fam s T' P' V' = Ok s' ->
  state_specs s'
  = match V', P' with
    | Some _, Some _ => [("P"%string, P'); ("V"%string, V')]
    | Some _, None => [("T"%string, T'); ("V"%string, V')]
    | None, _ => [("T"%string, T'); ("P"%string, P')]
    end.
Proof.
  intros Hm H. unfold construct in H.
  apply solve_inv in H as [s1 [Vs [H1 H]]].
  apply set_from_PT_result in H.
  apply selector_result_frame, same_frame_specs in H. rewrite H.
  eapply solve_candidates_specs in H1; [exact H1 | exact Hm | reflexivity].
Qed.

Lemma constructed_object_reports_its_specs_witness :
  state_specs tv_solved
  = [("T"%string, Some 400); ("V"%string, Some 0.003325785047261296)].
Proof.
  exact (@constructed_object_reports_its_specs table_numerics
           (IG_family table_numerics) IG_example tv_solved
           (Some 400) None (Some 0.003325785047261296)
           (@IG_family_marks_only table_numerics) eq_refl).
Defined.

(** X20: [T_min_at_V] is not a pure query.  On an object that was solved
    from a temperature and a pressure it goes through [solve_T], which
    marks the object; from then on [state_specs] reports the pressure and
    a volume that is [None], and no longer the temperature the object was
    solved at. *)
Theorem T_min_at_V_changes_reported_specs
    (nm : Numerics) (a_alpha_only : float -> result float) (s s' : EOS)
    (v Pmin : float) (r : option float) :
  V s = None -> no_T_spec s = false ->
  T_min_at_V nm a_alpha_only s v Pmin = Ok (s', r) ->
  state_specs s = [("T"%string, T s); ("P"%string, P s)]
  /\ state_specs s' = [("P"%string, P s); ("V"%string, None)].
Proof.
  intros HV Hn H. unfold T_min_at_V, solve_T in H.
  apply bind_ok in H as [[tb ts] [_ H]]. injection H as <- _.
  unfold state_specs. cbn. rewrite Hn, HV. split; reflexivity.
Qed.

Lemma T_min_at_V_changes_reported_specs_witness :
  state_specs low_pressure_solved
  = [("T"%string, T low_pressure_solved);
     ("P"%string, P low_pressure_solved)]
  /\ state_specs (set_no_T_spec low_pressure_solved)
     = [("P"%string, P low_pressure_solved); ("V"%string, None)].
Proof.
  exact (@T_min_at_V_changes_reported_specs midpoint_numerics
           (fun _ => Ok 3.8) low_pressure_solved
           (set_no_T_spec low_pressure_solved) 1e-3 1e-15
           low_pressure_T_min eq_refl eq_refl eq_refl).
Defined.

(** ** The round trip through a stored root *)











